(** * Data generation, batching and loss logging of the RNN tutorial notebook

    A shallow embedding of the three Python functions of
    [MSTC_RNN_1_TF1Py3.ipynb] that carry logic of their own:
    [gen_data], [gen_batch] and the logging loop of [train_network].

    - Python exceptions are explicit: a computation returns [Ok v] or
      [Raise e].
    - The random generator is an input: a tape that gives the outcome of
      every draw.
    - Array indices are [Z] where the source subtracts from them (negative
      indices wrap once, as in numpy), and [nat] for sizes and loop counters.
    - [np.int32] arrays hold [Z] values reduced to 32 bits two's complement. *)

From Stdlib Require Import ZArith QArith Lia ZifyNat.
From stdpp Require Import base option list.

Open Scope Z_scope.

(** ** Exceptions *)

Inductive exn : Set := IndexError | ValueError | ZeroDivisionError.

Inductive result (A : Type) : Type :=
| Ok (a : A)
| Raise (e : exn).
Arguments Ok {A} a.
Arguments Raise {A} e.

#[global] Instance result_ret : MRet result := fun A a => Ok a.
#[global] Instance result_bind : MBind result := fun A B f m =>
  match m with
  | Ok a => f a
  | Raise e => Raise e
  end.

Definition succeeds {A} (m : result A) : Prop := exists a, m = Ok a.

(** [for x in xs: body], threading the loop state; the first exception
    leaves the loop. *)
Fixpoint for_in {S I : Type} (body : S -> I -> result S) (s : S) (xs : list I)
  : result S :=
  match xs with
  | [] => Ok s
  | x :: xs' => s' ← body s x; for_in body s' xs'
  end.

(** [range(n)] *)
Definition range (n : nat) : list nat := seq 0 n.

(** ** Indexing *)

(** [a[k]] on a one-dimensional array: a negative index counts from the
    end, and whatever is still outside [0, len) raises [IndexError]. *)
Definition py_getitem {A : Type} (a : list A) (k : Z) : result A :=
  let n := Z.of_nat (length a) in
  let k' := if k <? 0 then k + n else k in
  if (k' <? 0) || (n <=? k') then Raise IndexError
  else match a !! Z.to_nat k' with
       | Some v => Ok v
       | None => Raise IndexError
       end.

(** [a[lo:hi]] for [0 <= lo] and [0 <= hi]: the bounds are clipped to the
    length, never an exception. *)
Definition py_slice {A : Type} (a : list A) (lo hi : nat) : list A :=
  take (hi - lo)%nat (drop lo a).

(** ** The random generator *)

(** [choice2 k] is the outcome of the [k]-th element of
    [np.random.choice(2, ...)], a draw from [np.arange(2)]; [rand k] is the
    value of the [k]-th call of [np.random.rand()]. *)
Record tape : Type := Tape {
  choice2 : nat -> bool;
  rand : nat -> Q
}.

Definition np_random_choice2 (t : tape) (size : nat) : list Z :=
  map (fun k => Z.b2z (choice2 t k)) (seq 0 size).

(** The draws of [np.random.rand()] lie in [0, 1). *)
Definition unit_draws (t : tape) : Prop :=
  forall k, (0 <= rand t k /\ rand t k < 1)%Q.

(** ** gen_data *)

(** Loop state of [gen_data]: the list [Y] and how many times
    [np.random.rand()] has been called. *)
Record gd_state : Type := GdState {
  gd_Y : list Z;
  gd_calls : nat
}.

(** [r > threshold] *)
Definition Qgt_bool (r threshold : Q) : bool := negb (Qle_bool r threshold).

(** One iteration of [for i in range(size)]. The thresholds 0.5, 1.0, 0.75
    and 0.25 are dyadic, so the float arithmetic of the source is exact and
    rationals model it. *)
Definition gen_data_body (t : tape) (X : list Z) (s : gd_state) (i : nat)
  : result gd_state :=
  let threshold := (1 # 2)%Q in
  x3 ← py_getitem X (Z.of_nat i - 3);
  let threshold := if x3 =? 1 then (threshold + (1 # 2))%Q else threshold in
  x8 ← py_getitem X (Z.of_nat i - 8);
  let threshold := if x8 =? 1 then (threshold - (1 # 4))%Q else threshold in
  let r := rand t (gd_calls s) in
  if Qgt_bool r threshold
  then Ok (GdState (gd_Y s ++ [0]) (S (gd_calls s)))
  else Ok (GdState (gd_Y s ++ [1]) (S (gd_calls s))).

Definition gen_data (t : tape) (size : nat) : result (list Z * list Z) :=
  let X := np_random_choice2 t size in
  s ← for_in (gen_data_body t X) (GdState [] 0) (range size);
  Ok (X, gd_Y s).

(** ** gen_batch *)

(** The raw sequences are integer arrays of numpy, [np.int64] for those
    that [gen_data] returns: a list of [Z] stands for such an array, with
    its elements in the range of [is_int64]. *)
Definition is_int64 (z : Z) : Prop := - 2 ^ 63 <= z < 2 ^ 63.

(** A value of an integer array stored in an array of [dtype=np.int32]:
    the cast between integer arrays keeps the low 32 bits. *)
Definition to_int32 (z : Z) : Z := (z + 2 ^ 31) mod 2 ^ 32 - 2 ^ 31.

Definition is_int32 (z : Z) : Prop := - 2 ^ 31 <= z < 2 ^ 31.

(** Two-dimensional arrays, row by row. *)
Abbreviation matrix := (list (list Z)).

(** [np.zeros([rows, cols], dtype=np.int32)] *)
Definition np_zeros (rows cols : nat) : matrix :=
  replicate rows (replicate cols 0).

(** [(rows, cols)] is the shape of [m]. *)
Definition has_shape (m : matrix) (rows cols : nat) : Prop :=
  length m = rows /\ Forall (fun row => length row = cols) m.

(** [m[i] = v] for a one-dimensional integer array [v]: [v] must have the
    length of the row, or length one (it is then broadcast along the row);
    the values are cast to the array's [int32]. This is the assignment of
    numpy for the elements an integer array holds ([is_int64]); integers
    beyond them exist only in Python lists, which are not modelled. *)
Definition set_row (m : matrix) (i : nat) (v : list Z) : result matrix :=
  match m !! i with
  | None => Raise IndexError
  | Some old =>
      let cols := length old in
      if decide (length v = cols) then Ok (<[i := map to_int32 v]> m)
      else match v with
           | [c] => Ok (<[i := replicate cols (to_int32 c)]> m)
           | _ => Raise ValueError
           end
  end.

(** [m[:, lo:hi]] *)
Definition columns (m : matrix) (lo hi : nat) : matrix :=
  map (fun row => py_slice row lo hi) m.

(** [a // b] on non-negative integers. *)
Definition floordiv (a b : nat) : result nat :=
  match b with
  | O => Raise ZeroDivisionError
  | S _ => Ok (a / b)%nat
  end.

(** One iteration of the loop that fills [data_x] and [data_y]. *)
Definition fill_body (raw_x raw_y : list Z) (batch_partition_length : nat)
    (d : matrix * matrix) (i : nat) : result (matrix * matrix) :=
  let '(data_x, data_y) := d in
  data_x ← set_row data_x i
    (py_slice raw_x (batch_partition_length * i) (batch_partition_length * (i + 1)));
  data_y ← set_row data_y i
    (py_slice raw_y (batch_partition_length * i) (batch_partition_length * (i + 1)));
  Ok (data_x, data_y).

(** The stacked matrices [data_x] and [data_y] once the first loop is over. *)
Definition stack (raw_x raw_y : list Z) (batch_size batch_partition_length : nat)
  : result (matrix * matrix) :=
  let data_x := np_zeros batch_size batch_partition_length in
  let data_y := np_zeros batch_size batch_partition_length in
  for_in (fill_body raw_x raw_y batch_partition_length) (data_x, data_y)
    (range batch_size).

(** The generator [gen_batch], as the list of the pairs it yields, in
    order. Everything that can raise comes before the first [yield], so an
    exception means that nothing was yielded. *)
Definition gen_batch (raw_data : list Z * list Z) (batch_size num_steps : nat)
  : result (list (matrix * matrix)) :=
  let '(raw_x, raw_y) := raw_data in
  let data_length := length raw_x in
  batch_partition_length ← floordiv data_length batch_size;
  d ← stack raw_x raw_y batch_size batch_partition_length;
  let '(data_x, data_y) := d in
  epoch_size ← floordiv batch_partition_length num_steps;
  Ok (map (fun i =>
             let x := columns data_x (i * num_steps) ((i + 1) * num_steps) in
             let y := columns data_y (i * num_steps) ((i + 1) * num_steps) in
             (x, y))
          (range epoch_size)).

(** Number of elements of a matrix, and of the [x] parts of a list of
    yielded pairs. *)
Definition numel (m : matrix) : nat := sum_list (map length m).

Definition yielded_x_count (bs : list (matrix * matrix)) : nat :=
  sum_list (map (fun b => numel (fst b)) bs).

Definition yielded_y_count (bs : list (matrix * matrix)) : nat :=
  sum_list (map (fun b => numel (snd b)) bs).

(** ** gen_epochs *)

(** Global configuration of the notebook, and the default [size] of
    [gen_data]. *)
Definition batch_size : nat := 200.
Definition default_size : nat := Z.to_nat 1000000.

(** [gen_epochs(n, num_steps)] as the list of the epochs it yields, each
    epoch being the list of the batches of its [gen_batch]. The [i]-th call
    of [gen_data()] reads the draws of [tapes i]. The generators are lazy in
    the source; only the value returned by the consumer is modelled, and it
    exists only when no epoch raises. *)
Definition gen_epochs (tapes : nat -> tape) (n num_steps : nat)
  : result (list (list (matrix * matrix))) :=
  for_in (fun epochs i =>
            raw_data ← gen_data (tapes i) default_size;
            epoch ← gen_batch raw_data batch_size num_steps;
            Ok (epochs ++ [epoch]))
         [] (range n).

(** [enumerate(xs)] *)
Definition enumerate {A : Type} (xs : list A) : list (nat * A) :=
  zip (seq 0 (length xs)) xs.

(** ** train_network *)

Section train_network.
(** The framework is opaque: [sess_run sess X Y training_state] stands for
    [sess.run([losses_last, total_loss, final_state, train_step], ...)] and
    gives back [total_loss], [final_state] and the session after the
    optimizer step. Losses are floats of the framework, with the addition
    and the division by 100 of the source left abstract. *)
Context {session rnn_state loss : Type}.
Variable sess_run :
  session -> matrix -> matrix -> rnn_state -> loss * rnn_state * session.
Variable np_zeros_state : nat -> nat -> rnn_state.
Variable loss_zero : loss.
Variable loss_add : loss -> loss -> loss.
Variable loss_div100 : loss -> loss.

(** The variables of [train_network] that change inside an epoch. *)
Record tn_state : Type := TnState {
  tn_sess : session;
  tn_training_losses : list loss;
  tn_training_loss : loss;
  tn_training_state : rnn_state
}.

(** Body of [for step, (X, Y) in enumerate(epoch)]; the [print] of the
    verbose mode is left out. *)
Definition step_body (s : tn_state) (e : nat * (matrix * matrix)) : tn_state :=
  let '(step, (X, Y)) := e in
  let '(training_loss_, training_state, sess) :=
    sess_run (tn_sess s) X Y (tn_training_state s) in
  let training_loss := loss_add (tn_training_loss s) training_loss_ in
  if (step mod 100 =? 0)%nat && (0 <? step)%nat
  then TnState sess
         (tn_training_losses s ++ [loss_div100 training_loss])
         loss_zero training_state
  else TnState sess (tn_training_losses s) training_loss training_state.

(** Body of [for idx, epoch in enumerate(gen_epochs(...))]. *)
Definition epoch_body (state_size : nat) (s : tn_state)
    (epoch : list (matrix * matrix)) : tn_state :=
  let s0 := TnState (tn_sess s) (tn_training_losses s) loss_zero
              (np_zeros_state batch_size state_size) in
  foldl step_body s0 (enumerate epoch).

(** The loops of [train_network] over epochs that are already there. *)
Definition train_loop (state_size : nat) (sess0 : session)
    (epochs : list (list (matrix * matrix))) : list loss :=
  tn_training_losses
    (foldl (epoch_body state_size)
           (TnState sess0 [] loss_zero (np_zeros_state batch_size state_size))
           epochs).

(** [train_network(num_epochs, num_steps, state_size)]; [sess0] is the
    session after [tf.global_variables_initializer()]. *)
Definition train_network (tapes : nat -> tape) (sess0 : session)
    (num_epochs num_steps state_size : nat) : result (list loss) :=
  epochs ← gen_epochs tapes num_epochs num_steps;
  Ok (train_loop state_size sess0 epochs).

(** *** What the session returns, without the logging *)

(** The losses [total_loss] of the successive steps of one epoch, with
    the recurrent state and the session after it. *)
Fixpoint run_epoch (sess : session) (st : rnn_state)
    (epoch : list (matrix * matrix)) : list loss * rnn_state * session :=
  match epoch with
  | [] => ([], st, sess)
  | (X, Y) :: epoch' =>
      let '(l, st', sess') := sess_run sess X Y st in
      let '(ls, st'', sess'') := run_epoch sess' st' epoch' in
      (l :: ls, st'', sess'')
  end.

(** The per-step losses of every epoch. *)
Fixpoint run_epochs (state_size : nat) (sess : session)
    (epochs : list (list (matrix * matrix))) : list (list loss) :=
  match epochs with
  | [] => []
  | epoch :: epochs' =>
      let '(ls, _, sess') :=
        run_epoch sess (np_zeros_state batch_size state_size) epoch in
      ls :: run_epochs state_size sess' epochs'
  end.

(** *** The logging rule, in the words of the specification *)

(** A step at which an entry is logged. *)
Definition logs_at (step : nat) : bool :=
  (step mod 100 =? 0)%nat && (0 <? step)%nat.

(** The loss accumulated at a logging step: the losses of the steps
    after the previous logging step (from step 0 for the first one), up
    to this step included, added in order starting from zero. *)
Definition accumulated (ls : list loss) (step : nat) : loss :=
  let since := if decide (step <= 100)%nat then 0%nat else (step - 99)%nat in
  foldl loss_add loss_zero (py_slice ls since (S step)).

(** The entries logged during an epoch whose per-step losses are [ls]. *)
Definition epoch_entries (ls : list loss) : list loss :=
  map (fun step => loss_div100 (accumulated ls step))
      (filter (fun step => logs_at step = true) (range (length ls))).

Definition logged_entries (lss : list (list loss)) : list loss :=
  concat (map epoch_entries lss).
End train_network.

(** ** The unrolled network and its loss *)

Section rnn_graph.
(** The cells that build the graph work on Python lists of tensors. The
    tensors and the operators of the framework are opaque: [rnn_cell] is the
    function of the notebook, [logit_of] stands for
    [tf.matmul(rnn_output, W) + b], [softmax] for [tf.nn.softmax],
    [cross_entropy] for [tf.nn.sparse_softmax_cross_entropy_with_logits] and
    [reduce_mean] for [tf.reduce_mean]. *)
Context {tensor : Type}.
Variable rnn_cell : tensor -> tensor -> tensor.
Variable init_state : tensor.
Variable logit_of : tensor -> tensor.
Variable softmax : tensor -> tensor.
Variable cross_entropy : tensor -> tensor -> tensor.
Variable reduce_mean : tensor -> tensor.

(** Body of [for rnn_input in rnn_inputs], on the pair of [state] and
    [rnn_outputs]. *)
Definition unroll_body (s : tensor * list tensor) (rnn_input : tensor)
  : tensor * list tensor :=
  let '(state, rnn_outputs) := s in
  let state := rnn_cell rnn_input state in
  (state, rnn_outputs ++ [state]).

(** What the graph cells define. *)
Record graph : Type := Graph {
  rnn_outputs : list tensor;
  final_state : tensor;
  logits : list tensor;
  predictions : list tensor;
  losses : list tensor;
  losses_last : tensor;
  total_loss : tensor
}.

(** The cells from [state = init_state] to [total_loss], in the order of
    the notebook, for the lists [rnn_inputs] and [y_as_list] that the
    framework hands over. *)
Definition build_graph (rnn_inputs y_as_list : list tensor) : result graph :=
  let '(state, rnn_outputs) := foldl unroll_body (init_state, []) rnn_inputs in
  final_state ← py_getitem rnn_outputs (-1);
  let logits := map logit_of rnn_outputs in
  let predictions := map softmax logits in
  let losses :=
    map (fun '(logit, label) => cross_entropy logit label)
        (zip logits y_as_list) in
  losses_last ← py_getitem losses (-1);
  last ← py_getitem losses (-1);
  let total_loss := reduce_mean last in
  Ok (Graph rnn_outputs final_state logits predictions losses losses_last
        total_loss).
End rnn_graph.

(** * Definitions used by the statements *)

(** The position that [a[i - lag]] reads in an array of length [size]:
    [i - lag] when it is not negative, and [size + i - lag] otherwise. *)
Definition lag_index (size i lag : nat) : nat :=
  if decide (lag <= i)%nat then (i - lag)%nat else (size + i - lag)%nat.

(** The bit of [X] that iteration [i] reads at distance [lag]. *)
Definition lagged_bit (t : tape) (size i lag : nat) : bool :=
  choice2 t (lag_index size i lag).

(** The threshold as the source computes it, from the two values read. *)
Definition threshold_of (x3 x8 : Z) : Q :=
  let threshold := (1 # 2)%Q in
  let threshold := if x3 =? 1 then (threshold + (1 # 2))%Q else threshold in
  if x8 =? 1 then (threshold - (1 # 4))%Q else threshold.

(** The label appended by iteration [i]. *)
Definition label_at (t : tape) (size i : nat) : Z :=
  let x3 := Z.b2z (lagged_bit t size i 3) in
  let x8 := Z.b2z (lagged_bit t size i 8) in
  if Qgt_bool (rand t i) (threshold_of x3 x8) then 0 else 1.

(** A tape to run the functions on: the bits alternate, starting with 1,
    and the draws go through 0.0, 0.1, ..., 0.9. *)
Definition sample_tape : tape :=
  Tape Nat.even (fun k => (Z.of_nat (k mod 10) # 10)%Q).

Definition is_bit (v : Z) : Prop := v = 0 \/ v = 1.

(** The documented chance of a label 1, given whether the bits three and
    eight steps back are 1. *)
Definition lag_probability (b3 b8 : bool) : Q :=
  match b3, b8 with
  | true, false => 1
  | true, true => 3 # 4
  | false, false => 1 # 2
  | false, true => 1 # 4
  end.

(** The rule for the label of index [i]: [gen_data] returns [X] and [Y],
    and, with [x3 = X[i-3]] and [x8 = X[i-8]] read the way Python reads them,
    [Y[i]] is 1 exactly when the [i]-th draw is at most the threshold; the
    threshold is 0.5, plus 0.5 when [x3 == 1], minus 0.25 when [x8 == 1],
    which is the documented probability. *)
Definition label_rule (t : tape) (size i : nat) : Prop :=
  exists (X Y : list Z) (x3 x8 y : Z),
    gen_data t size = Ok (X, Y) /\
    py_getitem X (Z.of_nat i - 3) = Ok x3 /\
    py_getitem X (Z.of_nat i - 8) = Ok x8 /\
    Y !! i = Some y /\
    is_bit y /\
    (y = 1 <-> (rand t i <= lag_probability (x3 =? 1) (x8 =? 1))%Q) /\
    (lag_probability (x3 =? 1) (x8 =? 1)
     == (1 # 2) + (if x3 =? 1 then 1 # 2 else 0) - (if x8 =? 1 then 1 # 4 else 0))%Q /\
    (unit_draws t -> x3 = 1 -> x8 <> 1 -> y = 1).

(** [gen_data] returns two arrays of bits of length [size]. *)
Definition returns_bits (t : tape) (size : nat) : Prop :=
  exists X Y : list Z,
    gen_data t size = Ok (X, Y) /\
    length X = size /\ length Y = size /\
    Forall is_bit X /\ Forall is_bit Y.

(** Row [r] of a stacked matrix, for rows of length [bpl]. *)
Definition stacked_row (bpl : nat) (raw : list Z) (r : nat) : list Z :=
  map to_int32 (py_slice raw (bpl * r) (bpl * (r + 1))).

(** The matrix when the rows below [k] have been assigned. *)
Definition partly_stacked (batch_size' bpl : nat) (raw : list Z) (k : nat)
  : matrix :=
  map (stacked_row bpl raw) (range k)
  ++ replicate (batch_size' - k) (replicate bpl 0).

(** The batches that [gen_batch] yields when nothing raises. *)
Definition batches_of (raw_x raw_y : list Z) (batch_size' num_steps : nat)
  : list (matrix * matrix) :=
  let bpl := (length raw_x / batch_size')%nat in
  let data_x := map (stacked_row bpl raw_x) (range batch_size') in
  let data_y := map (stacked_row bpl raw_y) (range batch_size') in
  map (fun i => (columns data_x (i * num_steps) ((i + 1) * num_steps),
                 columns data_y (i * num_steps) ((i + 1) * num_steps)))
      (range (bpl / num_steps)).

(** The element counts of the batches equal those of the raw data. *)
Definition preserves_count (raw_x raw_y : list Z) (batch_size' num_steps : nat)
  : Prop :=
  exists batches,
    gen_batch (raw_x, raw_y) batch_size' num_steps = Ok batches /\
    yielded_x_count batches = length raw_x /\
    yielded_y_count batches = length raw_y.

(** Degenerate sizes give no batch and no exception: for raw sequences of
    equal length, if batch_size > len(raw_x) or num_steps > len(raw_x) //
    batch_size, [gen_batch] ends normally without a batch. *)
Definition degenerate_yields_nothing (raw_x raw_y : list Z)
    (batch_size' num_steps : nat) : Prop :=
  length raw_x = length raw_y ->
  (length raw_x < batch_size')%nat \/
  (length raw_x / batch_size' < num_steps)%nat ->
  gen_batch (raw_x, raw_y) batch_size' num_steps = Ok [].

(** The epoch that the [i]-th iteration of [gen_epochs] yields. *)
Definition epoch_of (tapes : nat -> tape) (num_steps i : nat)
  : list (matrix * matrix) :=
  batches_of (np_random_choice2 (tapes i) default_size)
    (map (label_at (tapes i) default_size) (range default_size))
    batch_size num_steps.

(** The first step whose loss is still in the accumulator after [n] steps. *)
Definition pending_from (n : nat) : nat :=
  if decide (n <= 100)%nat then 0%nat else (100 * ((n - 1) / 100) + 1)%nat.

(** A session that counts its steps: the loss of a step is the number of
    steps run before it, and the division is the integer one. *)
Definition counting_run (sess : nat) (X Y : matrix) (st : unit)
  : Z * unit * nat :=
  (Z.of_nat sess, st, S sess).

(** Row [r] of the successive matrices of [ms], put end to end. *)
Definition row_of_batches (r : nat) (ms : list matrix) : list Z :=
  concat (map (fun m => default [] (m !! r)) ms).

(** A matrix of bits. *)
Definition all_bits (m : matrix) : Prop := Forall (Forall is_bit) m.

(** The state after the inputs [rnn_inputs], from the state [state]. *)
Definition state_after {tensor : Type} (rnn_cell : tensor -> tensor -> tensor)
    (state : tensor) (rnn_inputs : list tensor) : tensor :=
  foldl (fun state rnn_input => rnn_cell rnn_input state) state rnn_inputs.

(** * Properties *)

(** ** Loops and indexing *)

Lemma for_in_app {S I : Type} (body : S -> I -> result S) (s : S) (xs ys : list I) :
  for_in body s (xs ++ ys) = s' ← for_in body s xs; for_in body s' ys.
Proof.
  revert s. induction xs as [|x xs IH]; intros s; simpl; [done|].
  destruct (body s x) as [s'|e]; simpl; [apply IH | done].
Qed.

Lemma range_S (n : nat) : range (S n) = range n ++ [n].
Proof. unfold range. by rewrite seq_S. Qed.

Lemma py_getitem_lag {A : Type} (a : list A) (i lag : nat) (v : A) :
  (i < length a)%nat -> (lag <= length a)%nat -> (0 < lag)%nat ->
  a !! lag_index (length a) i lag = Some v ->
  py_getitem a (Z.of_nat i - Z.of_nat lag) = Ok v.
Proof.
  intros Hi Hlag Hpos Hv. unfold py_getitem, lag_index in *.
  destruct (decide (lag <= i)%nat) as [Hle|Hgt].
  - destruct (Z.ltb_spec (Z.of_nat i - Z.of_nat lag) 0) as [?|_]; [lia|].
    destruct (Z.ltb_spec (Z.of_nat i - Z.of_nat lag) 0) as [?|_]; [lia|].
    destruct (Z.leb_spec (Z.of_nat (length a)) (Z.of_nat i - Z.of_nat lag)) as [?|_];
      [lia|]. simpl.
    replace (Z.to_nat (Z.of_nat i - Z.of_nat lag)) with (i - lag)%nat by lia.
    by rewrite Hv.
  - destruct (Z.ltb_spec (Z.of_nat i - Z.of_nat lag) 0) as [_|?]; [|lia].
    destruct (Z.ltb_spec (Z.of_nat i - Z.of_nat lag + Z.of_nat (length a)) 0)
      as [?|_]; [lia|].
    destruct (Z.leb_spec (Z.of_nat (length a))
                (Z.of_nat i - Z.of_nat lag + Z.of_nat (length a))) as [?|_]; [lia|].
    simpl.
    replace (Z.to_nat (Z.of_nat i - Z.of_nat lag + Z.of_nat (length a)))
      with (length a + i - lag)%nat by lia.
    by rewrite Hv.
Qed.

Lemma py_getitem_below {A : Type} (a : list A) (k : Z) :
  k + Z.of_nat (length a) < 0 -> py_getitem a k = Raise IndexError.
Proof.
  intros Hk. unfold py_getitem.
  destruct (Z.ltb_spec k 0) as [_|?]; [|lia].
  destruct (Z.ltb_spec (k + Z.of_nat (length a)) 0) as [_|?]; [done|lia].
Qed.

Lemma lag_index_lt (size i lag : nat) :
  (i < size)%nat -> (lag <= size)%nat -> (0 < lag)%nat ->
  (lag_index size i lag < size)%nat.
Proof. unfold lag_index. case_decide; lia. Qed.

(** ** gen_data *)

Lemma length_np_random_choice2 (t : tape) (size : nat) :
  length (np_random_choice2 t size) = size.
Proof. unfold np_random_choice2. by rewrite length_map, length_seq. Qed.

Lemma lookup_np_random_choice2 (t : tape) (size k : nat) :
  (k < size)%nat ->
  np_random_choice2 t size !! k = Some (Z.b2z (choice2 t k)).
Proof.
  intros Hk. unfold np_random_choice2.
  rewrite list_lookup_fmap, lookup_seq_lt by done. done.
Qed.

Lemma np_random_choice2_bits (t : tape) (size : nat) :
  Forall (fun v => v = 0 \/ v = 1) (np_random_choice2 t size).
Proof.
  unfold np_random_choice2. apply Forall_forall. intros v Hv.
  apply list_elem_of_In, in_map_iff in Hv as (k & <- & _).
  destruct (choice2 t k); simpl; auto.
Qed.

Lemma gen_data_body_ok (t : tape) (size i : nat) (s : gd_state) :
  (8 <= size)%nat -> (i < size)%nat -> gd_calls s = i ->
  gen_data_body t (np_random_choice2 t size) s i
  = Ok (GdState (gd_Y s ++ [label_at t size i]) (S i)).
Proof.
  intros Hsize Hi Hcalls. unfold gen_data_body.
  rewrite (py_getitem_lag _ i 3 (Z.b2z (lagged_bit t size i 3)));
    rewrite ?length_np_random_choice2; try lia;
    [|apply lookup_np_random_choice2, lag_index_lt; lia].
  simpl.
  rewrite (py_getitem_lag _ i 8 (Z.b2z (lagged_bit t size i 8)));
    rewrite ?length_np_random_choice2; try lia;
    [|apply lookup_np_random_choice2, lag_index_lt; lia].
  simpl. rewrite Hcalls. unfold label_at, threshold_of.
  by destruct (Qgt_bool _ _).
Qed.

Lemma gen_data_loop (t : tape) (size n a : nat) (s : gd_state) :
  (8 <= size)%nat -> (a + n <= size)%nat -> gd_calls s = a ->
  for_in (gen_data_body t (np_random_choice2 t size)) s (seq a n)
  = Ok (GdState (gd_Y s ++ map (label_at t size) (seq a n)) (a + n)).
Proof.
  intros Hsize. revert a s. induction n as [|n IH]; intros a s Han Hcalls.
  - simpl. rewrite app_nil_r, Nat.add_0_r, <- Hcalls. by destruct s.
  - simpl. rewrite gen_data_body_ok by lia. simpl.
    rewrite IH by (simpl; lia). simpl.
    rewrite <- app_assoc. simpl. do 2 f_equal. lia.
Qed.

(** From size 8 on, [gen_data] returns, and the labels are those of
    [label_at]. *)
Lemma gen_data_large (t : tape) (size : nat) :
  (8 <= size)%nat ->
  gen_data t size
  = Ok (np_random_choice2 t size, map (label_at t size) (range size)).
Proof.
  intros Hsize. unfold gen_data, range.
  rewrite gen_data_loop by (simpl; lia). done.
Qed.

(** For sizes 1 to 7 the first iteration already reads outside the array. *)
Lemma gen_data_small (t : tape) (size : nat) :
  (1 <= size < 8)%nat -> gen_data t size = Raise IndexError.
Proof.
  intros Hsize.
  do 8 (destruct size as [|size]; [try lia; reflexivity|]). lia.
Qed.

Lemma gen_data_empty (t : tape) : gen_data t 0 = Ok ([], []).
Proof. reflexivity. Qed.

Lemma threshold_of_bits (b3 b8 : bool) :
  (threshold_of (Z.b2z b3) (Z.b2z b8) == lag_probability b3 b8)%Q.
Proof. by destruct b3, b8. Qed.

Lemma b2z_eqb_1 (b : bool) : (Z.b2z b =? 1) = b.
Proof. by destruct b. Qed.

Lemma label_at_bit (t : tape) (size i : nat) : is_bit (label_at t size i).
Proof. unfold label_at, is_bit. destruct (Qgt_bool _ _); auto. Qed.

Lemma label_at_one (t : tape) (size i : nat) :
  label_at t size i = 1
  <-> (rand t i <= lag_probability (lagged_bit t size i 3) (lagged_bit t size i 8))%Q.
Proof.
  unfold label_at, Qgt_bool. rewrite <- threshold_of_bits, <- Qle_bool_iff.
  destruct (Qle_bool _ _); simpl; split; intros; congruence.
Qed.

Lemma lookup_labels (t : tape) (size i : nat) :
  (i < size)%nat ->
  map (label_at t size) (range size) !! i = Some (label_at t size i).
Proof.
  intros Hi. unfold range. rewrite list_lookup_fmap, lookup_seq_lt by done. done.
Qed.

Lemma labels_bits (t : tape) (size : nat) :
  Forall is_bit (map (label_at t size) (range size)).
Proof.
  apply Forall_forall. intros v Hv.
  apply list_elem_of_In, in_map_iff in Hv as (k & <- & _). apply label_at_bit.
Qed.

Lemma getitem_lagged (t : tape) (size i lag : nat) :
  (i < size)%nat -> (lag <= size)%nat -> (0 < lag)%nat ->
  py_getitem (np_random_choice2 t size) (Z.of_nat i - Z.of_nat lag)
  = Ok (Z.b2z (lagged_bit t size i lag)).
Proof.
  intros Hi Hlag Hpos. apply py_getitem_lag;
    rewrite ?length_np_random_choice2; try done.
  apply lookup_np_random_choice2, lag_index_lt; done.
Qed.

(** C1 (amended): for every size >= 8 and every index i < size, [gen_data]
    returns and [Y[i]] is 1 if and only if the i-th draw is at most the
    threshold, which starts at 0.5, gains 0.5 when [X[i-3] == 1] and loses
    0.25 when [X[i-8] == 1]; the threshold is 1.0, 0.75, 0.5 or 0.25
    according to the two lagged bits, and with threshold 1.0 every draw of
    [0, 1) gives the label 1. *)
Theorem gen_data_label_rule (t : tape) (size i : nat) :
  (8 <= size)%nat -> (i < size)%nat -> label_rule t size i.
Proof.
  intros Hsize Hi.
  exists (np_random_choice2 t size), (map (label_at t size) (range size)),
    (Z.b2z (lagged_bit t size i 3)), (Z.b2z (lagged_bit t size i 8)),
    (label_at t size i).
  rewrite !b2z_eqb_1.
  split; [by apply gen_data_large|].
  split; [apply (getitem_lagged t size i 3); lia|].
  split; [apply (getitem_lagged t size i 8); lia|].
  split; [by apply lookup_labels|].
  split; [apply label_at_bit|].
  split; [apply label_at_one|].
  split; [by destruct (lagged_bit t size i 3), (lagged_bit t size i 8)|].
  intros Hdraws H3 H8. apply label_at_one.
  destruct (lagged_bit t size i 3); [|discriminate].
  destruct (lagged_bit t size i 8); [done|]. simpl.
  apply Qlt_le_weak, Hdraws.
Qed.

Lemma gen_data_label_rule_witness :
  (8 <= 10)%nat /\ (0 < 10)%nat /\ label_rule sample_tape 10 0.
Proof.
  split; [lia|]. split; [lia|]. apply (gen_data_label_rule sample_tape 10 0); lia.
Defined.

(** C1 as stated fails for the sizes 1 to 7: with size 1, [gen_data] raises
    [IndexError] at [X[-3]] and produces no label at all. *)
Lemma gen_data_label_rule_size_1 : ~ label_rule sample_tape 1 0.
Proof. intros (X & Y & x3 & x8 & y & Hrun & _). discriminate Hrun. Qed.

(** C5 (amended): for every size >= 8, [gen_data] returns two arrays [X]
    and [Y] of length [size] whose elements are all 0 or 1. *)
Theorem gen_data_returns_bits (t : tape) (size : nat) :
  (8 <= size)%nat -> returns_bits t size.
Proof.
  intros Hsize.
  exists (np_random_choice2 t size), (map (label_at t size) (range size)).
  split; [by apply gen_data_large|].
  split; [apply length_np_random_choice2|].
  split; [unfold range; by rewrite length_map, length_seq|].
  split; [apply np_random_choice2_bits|]. apply labels_bits.
Qed.

Lemma gen_data_returns_bits_witness :
  (8 <= 8)%nat /\ returns_bits sample_tape 8.
Proof. split; [lia|]. apply (gen_data_returns_bits sample_tape 8). lia. Defined.

(** C5 as stated fails below size 8: with size 5, [X[-3]] is read but
    [X[-8]] raises [IndexError], so nothing is returned. *)
Lemma gen_data_returns_bits_size_5 : ~ returns_bits sample_tape 5.
Proof. intros (X & Y & Hrun & _). discriminate Hrun. Qed.

(** C8: for every size >= 8 the first eight labels are computed from the
    tail of [X]: for i < 8 the read [X[i-8]] is [X[size+i-8]], for i < 3
    the read [X[i-3]] is [X[size+i-3]] (and [X[i-3]] itself for
    3 <= i < 8), and [Y[i]] is the label that the source computes from these
    two values and the i-th draw. *)
Theorem gen_data_wraps_around (t : tape) (size i : nat) :
  (8 <= size)%nat -> (i < 8)%nat ->
  exists (X Y : list Z) (x3 x8 : Z),
    gen_data t size = Ok (X, Y) /\
    X !! (if decide (i < 3)%nat then size + i - 3 else i - 3)%nat = Some x3 /\
    X !! (size + i - 8)%nat = Some x8 /\
    py_getitem X (Z.of_nat i - 3) = Ok x3 /\
    py_getitem X (Z.of_nat i - 8) = Ok x8 /\
    Y !! i = Some (if Qgt_bool (rand t i) (threshold_of x3 x8) then 0 else 1).
Proof.
  intros Hsize Hi.
  exists (np_random_choice2 t size), (map (label_at t size) (range size)),
    (Z.b2z (lagged_bit t size i 3)), (Z.b2z (lagged_bit t size i 8)).
  split; [by apply gen_data_large|].
  split.
  { unfold lagged_bit, lag_index.
    destruct (decide (i < 3)%nat), (decide (3 <= i)%nat); try lia;
      apply lookup_np_random_choice2; lia. }
  split.
  { unfold lagged_bit, lag_index.
    destruct (decide (8 <= i)%nat); [lia|].
    apply lookup_np_random_choice2; lia. }
  split; [apply (getitem_lagged t size i 3); lia|].
  split; [apply (getitem_lagged t size i 8); lia|].
  apply lookup_labels. lia.
Qed.

Lemma gen_data_wraps_around_witness :
  (8 <= 12)%nat /\ (2 < 8)%nat /\
  exists (X Y : list Z) (x3 x8 : Z),
    gen_data sample_tape 12 = Ok (X, Y) /\
    X !! 11%nat = Some x3 /\ X !! 6%nat = Some x8 /\
    py_getitem X (-1) = Ok x3 /\ py_getitem X (-6) = Ok x8 /\
    Y !! 2%nat = Some (if Qgt_bool (rand sample_tape 2) (threshold_of x3 x8)
                       then 0 else 1).
Proof.
  split; [lia|]. split; [lia|].
  apply (gen_data_wraps_around sample_tape 12 2); lia.
Defined.

(** ** gen_batch *)

Lemma length_py_slice {A : Type} (a : list A) (lo hi : nat) :
  (hi <= length a)%nat -> length (py_slice a lo hi) = (hi - lo)%nat.
Proof. intros Hhi. unfold py_slice. rewrite length_take, length_drop. lia. Qed.

Lemma lookup_py_slice {A : Type} (a : list A) (lo hi c : nat) :
  (c < hi - lo)%nat -> py_slice a lo hi !! c = a !! (lo + c)%nat.
Proof. intros Hc. unfold py_slice. by rewrite lookup_take_lt, lookup_drop. Qed.

Lemma to_int32_id (z : Z) : is_int32 z -> to_int32 z = z.
Proof.
  unfold is_int32, to_int32. intros Hz.
  rewrite Z.mod_small by lia. lia.
Qed.

Lemma to_int32_range (z : Z) : is_int32 (to_int32 z).
Proof.
  unfold is_int32, to_int32.
  pose proof (Z.mod_pos_bound (z + 2 ^ 31) (2 ^ 32) ltac:(lia)). lia.
Qed.

Lemma map_to_int32_id (l : list Z) : Forall is_int32 l -> map to_int32 l = l.
Proof.
  induction 1 as [|z l Hz _ IH]; simpl; [done|].
  by rewrite to_int32_id, IH.
Qed.

Lemma is_bit_int32 (v : Z) : is_bit v -> is_int32 v.
Proof. unfold is_bit, is_int32. lia. Qed.

Lemma Forall_py_slice {A : Type} (P : A -> Prop) (a : list A) (lo hi : nat) :
  Forall P a -> Forall P (py_slice a lo hi).
Proof. intros Ha. unfold py_slice. by apply Forall_take, Forall_drop. Qed.

(** A row assignment of the right length succeeds and replaces the row. *)
Lemma set_row_ok (m : matrix) (i : nat) (old v : list Z) :
  m !! i = Some old -> length v = length old ->
  set_row m i v = Ok (<[i := map to_int32 v]> m).
Proof.
  intros Hold Hlen. unfold set_row. rewrite Hold.
  by destruct (decide (length v = length old)).
Qed.

Section stacking.
Variables (raw_x raw_y : list Z) (batch_size' bpl : nat).

Lemma length_stacked_row (raw : list Z) (r : nat) :
  (bpl * batch_size' <= length raw)%nat -> (r < batch_size')%nat ->
  length (stacked_row bpl raw r) = bpl.
Proof.
  intros Hfits Hr. unfold stacked_row.
  rewrite length_map, length_py_slice; [lia|]. nia.
Qed.

Lemma partly_stacked_step (raw : list Z) (k : nat) :
  (bpl * batch_size' <= length raw)%nat -> (k < batch_size')%nat ->
  set_row (partly_stacked batch_size' bpl raw k) k (py_slice raw (bpl * k) (bpl * (k + 1)))
  = Ok (partly_stacked batch_size' bpl raw (S k)).
Proof.
  intros Hfits Hk.
  assert (Hlen : length (map (stacked_row bpl raw) (range k)) = k)
    by (unfold range; by rewrite length_map, length_seq).
  rewrite (set_row_ok _ _ (replicate bpl 0)).
  - f_equal. unfold partly_stacked.
    rewrite insert_app_r_alt by lia. rewrite Hlen, Nat.sub_diag.
    replace (batch_size' - k)%nat with (S (batch_size' - S k)) by lia.
    rewrite range_S, map_app, <- app_assoc. done.
  - unfold partly_stacked. rewrite lookup_app_r by lia.
    rewrite Hlen, Nat.sub_diag.
    replace (batch_size' - k)%nat with (S (batch_size' - S k)) by lia. done.
  - rewrite length_replicate, length_py_slice; [lia|]. nia.
Qed.

Lemma fill_loop (k : nat) :
  (bpl * batch_size' <= length raw_x)%nat ->
  (bpl * batch_size' <= length raw_y)%nat ->
  (k <= batch_size')%nat ->
  for_in (fill_body raw_x raw_y bpl)
    (partly_stacked batch_size' bpl raw_x 0, partly_stacked batch_size' bpl raw_y 0) (range k)
  = Ok (partly_stacked batch_size' bpl raw_x k, partly_stacked batch_size' bpl raw_y k).
Proof.
  intros fits_x fits_y. induction k as [|k IH]; intros Hk; [done|].
  rewrite range_S, for_in_app, IH by lia. simpl.
  rewrite !partly_stacked_step by (done || lia). done.
Qed.

(** The first loop of [gen_batch] succeeds, and row [r] of each matrix
    holds the [r]-th slice of length [bpl] of the raw sequence. *)
Lemma stack_ok :
  (bpl * batch_size' <= length raw_x)%nat ->
  (bpl * batch_size' <= length raw_y)%nat ->
  stack raw_x raw_y batch_size' bpl
  = Ok (map (stacked_row bpl raw_x) (range batch_size'),
        map (stacked_row bpl raw_y) (range batch_size')).
Proof.
  intros fits_x fits_y. unfold stack.
  pose proof (fill_loop batch_size' fits_x fits_y ltac:(lia)) as Hloop.
  unfold partly_stacked in Hloop. simpl in Hloop.
  rewrite Nat.sub_0_r, Nat.sub_diag in Hloop. simpl in Hloop.
  rewrite !app_nil_r in Hloop. exact Hloop.
Qed.
End stacking.

Lemma bpl_fits (len batch_size' : nat) :
  (1 <= batch_size')%nat -> (len / batch_size' * batch_size' <= len)%nat.
Proof. intros Hbs. rewrite Nat.mul_comm. apply Nat.Div0.mul_div_le. Qed.

Lemma window_fits (bpl num_steps i : nat) :
  (1 <= num_steps)%nat -> (i < bpl / num_steps)%nat ->
  ((i + 1) * num_steps <= bpl)%nat.
Proof.
  intros Hns Hi.
  pose proof (Nat.Div0.mul_div_le bpl num_steps). nia.
Qed.

Lemma bind_Ok {A B : Type} (a : A) (f : A -> result B) : (Ok a ≫= f) = f a.
Proof. done. Qed.

Lemma floordiv_ok (a b : nat) : (1 <= b)%nat -> floordiv a b = Ok (a / b)%nat.
Proof. intros Hb. destruct b; [lia|done]. Qed.

(** With sequences of equal length and positive sizes [gen_batch] raises
    nothing and yields [batches_of]. *)
Lemma gen_batch_ok (raw_x raw_y : list Z) (batch_size' num_steps : nat) :
  length raw_x = length raw_y ->
  (1 <= batch_size')%nat -> (1 <= num_steps)%nat ->
  gen_batch (raw_x, raw_y) batch_size' num_steps
  = Ok (batches_of raw_x raw_y batch_size' num_steps).
Proof.
  intros Hlen Hbs Hns. unfold gen_batch.
  rewrite floordiv_ok, bind_Ok by done.
  rewrite stack_ok, bind_Ok.
  - rewrite floordiv_ok, bind_Ok by done. done.
  - by apply bpl_fits.
  - rewrite <- Hlen. by apply bpl_fits.
Qed.

Lemma length_batches_of (raw_x raw_y : list Z) (batch_size' num_steps : nat) :
  length (batches_of raw_x raw_y batch_size' num_steps)
  = (length raw_x / batch_size' / num_steps)%nat.
Proof. unfold batches_of, range. by rewrite length_map, length_seq. Qed.

Lemma lookup_batches_of (raw_x raw_y : list Z) (batch_size' num_steps i : nat) :
  let bpl := (length raw_x / batch_size')%nat in
  (i < bpl / num_steps)%nat ->
  batches_of raw_x raw_y batch_size' num_steps !! i
  = Some (columns (map (stacked_row bpl raw_x) (range batch_size'))
            (i * num_steps) ((i + 1) * num_steps),
          columns (map (stacked_row bpl raw_y) (range batch_size'))
            (i * num_steps) ((i + 1) * num_steps)).
Proof.
  intros bpl Hi. unfold batches_of, range.
  rewrite list_lookup_fmap, lookup_seq_lt by done. done.
Qed.

Lemma batches_of_inv (raw_x raw_y : list Z) (batch_size' num_steps i : nat)
    (x y : matrix) :
  let bpl := (length raw_x / batch_size')%nat in
  batches_of raw_x raw_y batch_size' num_steps !! i = Some (x, y) ->
  (i < bpl / num_steps)%nat /\
  x = columns (map (stacked_row bpl raw_x) (range batch_size'))
        (i * num_steps) ((i + 1) * num_steps) /\
  y = columns (map (stacked_row bpl raw_y) (range batch_size'))
        (i * num_steps) ((i + 1) * num_steps).
Proof.
  intros bpl Hxy.
  assert (Hi : (i < bpl / num_steps)%nat).
  { apply lookup_lt_Some in Hxy. by rewrite length_batches_of in Hxy. }
  rewrite lookup_batches_of in Hxy by done.
  injection Hxy as <- <-. done.
Qed.

(** A window of a stacked matrix has [batch_size] rows of [num_steps]
    columns. *)
Lemma window_shape (raw : list Z) (batch_size' bpl num_steps i : nat) :
  (bpl * batch_size' <= length raw)%nat ->
  ((i + 1) * num_steps <= bpl)%nat ->
  has_shape (columns (map (stacked_row bpl raw) (range batch_size'))
               (i * num_steps) ((i + 1) * num_steps))
            batch_size' num_steps.
Proof.
  intros Hfits Hwin. unfold has_shape, columns, range. split.
  - by rewrite !length_map, length_seq.
  - apply Forall_forall. intros row Hrow.
    apply list_elem_of_In, in_map_iff in Hrow as (full & <- & Hfull).
    apply in_map_iff in Hfull as (r & <- & Hr). apply in_seq in Hr.
    rewrite length_py_slice; [lia|].
    rewrite length_stacked_row with (batch_size' := batch_size'); lia.
Qed.

(** The element at row [r], column [c] of the [i]-th window is the raw
    element of index [bpl * r + i * num_steps + c], as an [int32]. *)
Lemma window_lookup (raw : list Z) (batch_size' bpl num_steps i r c : nat) :
  (bpl * batch_size' <= length raw)%nat ->
  ((i + 1) * num_steps <= bpl)%nat ->
  (r < batch_size')%nat -> (c < num_steps)%nat ->
  exists (row : list Z) (v : Z),
    columns (map (stacked_row bpl raw) (range batch_size'))
      (i * num_steps) ((i + 1) * num_steps) !! r = Some row /\
    row !! c = Some (to_int32 v) /\
    raw !! (bpl * r + i * num_steps + c)%nat = Some v.
Proof.
  intros Hfits Hwin Hr Hc.
  destruct (lookup_lt_is_Some_2 raw (bpl * r + i * num_steps + c)%nat) as [v Hv];
    [nia|].
  exists (py_slice (stacked_row bpl raw r) (i * num_steps) ((i + 1) * num_steps)), v.
  split.
  - unfold columns, range.
    rewrite !list_lookup_fmap, lookup_seq_lt by done. done.
  - split; [|done].
    rewrite lookup_py_slice by lia. unfold stacked_row.
    rewrite list_lookup_fmap, lookup_py_slice by lia.
    rewrite Nat.add_assoc, Hv. done.
Qed.

Lemma numel_shape (m : matrix) (rows cols : nat) :
  has_shape m rows cols -> numel m = (rows * cols)%nat.
Proof.
  intros [<- Hrows]. unfold numel.
  induction Hrows as [|row m Hrow _ IH]; simpl; [done|]. lia.
Qed.

Lemma sum_list_const {A : Type} (f : A -> nat) (l : list A) (k : nat) :
  Forall (fun a => f a = k) l -> sum_list (map f l) = (length l * k)%nat.
Proof. induction 1 as [|a l Ha _ IH]; simpl; [done|]. lia. Qed.

Lemma batches_of_shapes (raw_x raw_y : list Z) (batch_size' num_steps : nat) :
  length raw_x = length raw_y ->
  (1 <= batch_size')%nat -> (1 <= num_steps)%nat ->
  Forall (fun b => has_shape (fst b) batch_size' num_steps /\
                   has_shape (snd b) batch_size' num_steps)
         (batches_of raw_x raw_y batch_size' num_steps).
Proof.
  intros Hlen Hbs Hns. apply Forall_lookup. intros i [x y] Hxy.
  apply batches_of_inv in Hxy as (Hi & -> & ->). simpl.
  pose proof (bpl_fits (length raw_x) batch_size' Hbs) as Hfits.
  split; apply window_shape; try (apply window_fits; done); lia.
Qed.

Lemma yielded_counts (raw_x raw_y : list Z) (batch_size' num_steps : nat) :
  length raw_x = length raw_y ->
  (1 <= batch_size')%nat -> (1 <= num_steps)%nat ->
  let batches := batches_of raw_x raw_y batch_size' num_steps in
  let total :=
    (length raw_x / batch_size' / num_steps * (batch_size' * num_steps))%nat in
  yielded_x_count batches = total /\ yielded_y_count batches = total.
Proof.
  intros Hlen Hbs Hns batches total.
  pose proof (batches_of_shapes raw_x raw_y batch_size' num_steps Hlen Hbs Hns)
    as Hshapes.
  unfold yielded_x_count, yielded_y_count, total.
  rewrite <- (length_batches_of raw_x raw_y batch_size' num_steps).
  split; apply sum_list_const; eapply Forall_impl; try exact Hshapes;
    intros b [Hx Hy]; by apply numel_shape.
Qed.

Lemma truncated_total (len batch_size' num_steps : nat) :
  (1 <= batch_size')%nat -> (1 <= num_steps)%nat ->
  let total := (len / batch_size' / num_steps * (batch_size' * num_steps))%nat in
  (total <= len)%nat /\
  (total = len <->
   (len mod batch_size' = 0)%nat /\ ((len / batch_size') mod num_steps = 0)%nat).
Proof.
  intros Hbs Hns total. unfold total.
  pose proof (Nat.div_mod_eq len batch_size') as Hq.
  pose proof (Nat.mod_upper_bound len batch_size' ltac:(lia)) as Hqr.
  pose proof (Nat.div_mod_eq (len / batch_size') num_steps) as He.
  pose proof (Nat.mod_upper_bound (len / batch_size') num_steps ltac:(lia)) as Her.
  set (q := (len / batch_size')%nat) in *.
  set (e := (q / num_steps)%nat) in *.
  set (r1 := (len mod batch_size')%nat) in *.
  set (r2 := (q mod num_steps)%nat) in *.
  assert (Hexp : (e * (batch_size' * num_steps) + batch_size' * r2 + r1 = len)%nat)
    by nia.
  split; [lia|]. split.
  - intros Heq. assert (batch_size' * r2 + r1 = 0)%nat by lia. nia.
  - intros [-> ->]. lia.
Qed.

(** C2 (amended): for raw sequences of equal length n and positive
    batch_size and num_steps, the x parts of the yielded batches, and
    likewise the y parts, hold (n // batch_size // num_steps) * batch_size *
    num_steps elements in total; this is at most n, and it is n exactly
    when batch_size divides n and num_steps divides n // batch_size. *)
Theorem gen_batch_element_count (raw_x raw_y : list Z) (batch_size' num_steps : nat) :
  length raw_x = length raw_y ->
  (1 <= batch_size')%nat -> (1 <= num_steps)%nat ->
  exists batches,
    gen_batch (raw_x, raw_y) batch_size' num_steps = Ok batches /\
    yielded_x_count batches
    = (length raw_x / batch_size' / num_steps * (batch_size' * num_steps))%nat /\
    yielded_y_count batches = yielded_x_count batches /\
    (yielded_x_count batches <= length raw_x)%nat /\
    (yielded_x_count batches = length raw_x <->
     (length raw_x mod batch_size' = 0)%nat /\
     ((length raw_x / batch_size') mod num_steps = 0)%nat).
Proof.
  intros Hlen Hbs Hns.
  exists (batches_of raw_x raw_y batch_size' num_steps).
  destruct (yielded_counts raw_x raw_y batch_size' num_steps Hlen Hbs Hns)
    as [Hx Hy].
  destruct (truncated_total (length raw_x) batch_size' num_steps Hbs Hns)
    as [Hle Hiff].
  split; [by apply gen_batch_ok|].
  split; [exact Hx|]. split; [by rewrite Hx, Hy|].
  rewrite Hx. done.
Qed.

Lemma gen_batch_element_count_witness :
  exists batches,
    gen_batch ([1; 0; 1; 1; 0; 0; 1; 0; 1; 1; 0; 1],
               [0; 1; 1; 0; 1; 0; 0; 1; 1; 1; 0; 0]) 2 3 = Ok batches /\
    yielded_x_count batches = 12%nat /\
    yielded_y_count batches = yielded_x_count batches /\
    (yielded_x_count batches <= 12)%nat /\
    (yielded_x_count batches = 12%nat <-> 0%nat = 0%nat /\ 0%nat = 0%nat).
Proof.
  apply (gen_batch_element_count [1; 0; 1; 1; 0; 0; 1; 0; 1; 1; 0; 1]
           [0; 1; 1; 0; 1; 0; 0; 1; 1; 1; 0; 0] 2 3);
    [reflexivity | lia | lia].
Defined.

(** C2 as stated fails when the sizes do not divide the length: ten
    elements in batches of 3 rows and 2 columns give one batch of six
    elements, and four elements are dropped. *)
Lemma gen_batch_drops_remainder :
  ~ preserves_count [1; 0; 1; 1; 0; 0; 1; 0; 1; 1] [0; 1; 1; 0; 1; 0; 0; 1; 1; 1] 3 2.
Proof.
  intros (batches & Hrun & Hx & _).
  vm_compute in Hrun. injection Hrun as <-. vm_compute in Hx. discriminate Hx.
Qed.

(** C3: for raw sequences of equal length and positive batch_size and
    num_steps, every yielded pair (x, y) has the shape
    [batch_size, num_steps], x and y alike. *)
Theorem gen_batch_fixed_shape (raw_x raw_y : list Z) (batch_size' num_steps : nat) :
  length raw_x = length raw_y ->
  (1 <= batch_size')%nat -> (1 <= num_steps)%nat ->
  exists batches,
    gen_batch (raw_x, raw_y) batch_size' num_steps = Ok batches /\
    forall (i : nat) (x y : matrix),
      batches !! i = Some (x, y) ->
      has_shape x batch_size' num_steps /\ has_shape y batch_size' num_steps.
Proof.
  intros Hlen Hbs Hns.
  exists (batches_of raw_x raw_y batch_size' num_steps).
  split; [by apply gen_batch_ok|].
  intros i x y Hxy.
  pose proof (batches_of_shapes raw_x raw_y batch_size' num_steps Hlen Hbs Hns)
    as Hshapes.
  rewrite Forall_lookup in Hshapes. exact (Hshapes i (x, y) Hxy).
Qed.

Lemma gen_batch_fixed_shape_witness :
  exists batches,
    gen_batch ([1; 0; 1; 1; 0; 0; 1; 0; 1; 1], [0; 1; 1; 0; 1; 0; 0; 1; 1; 1]) 3 2
    = Ok batches /\
    forall (i : nat) (x y : matrix),
      batches !! i = Some (x, y) -> has_shape x 3 2 /\ has_shape y 3 2.
Proof.
  apply (gen_batch_fixed_shape [1; 0; 1; 1; 0; 0; 1; 0; 1; 1]
           [0; 1; 1; 0; 1; 0; 0; 1; 1; 1] 3 2);
    [reflexivity | lia | lia].
Defined.

Lemma lookup_stacked (raw : list Z) (batch_size' bpl r : nat) :
  (r < batch_size')%nat ->
  map (stacked_row bpl raw) (range batch_size') !! r = Some (stacked_row bpl raw r).
Proof.
  intros Hr. unfold range. rewrite list_lookup_fmap, lookup_seq_lt by done. done.
Qed.

Lemma stacked_row_int32 (raw : list Z) (bpl r : nat) :
  Forall is_int32 raw ->
  stacked_row bpl raw r = py_slice raw (bpl * r) (bpl * (r + 1)).
Proof. intros Hraw. unfold stacked_row. by apply map_to_int32_id, Forall_py_slice. Qed.

Lemma py_slice_width {A : Type} (a : list A) (lo n : nat) :
  py_slice a (n * lo) (n * (lo + 1)) = take n (drop (n * lo) a).
Proof. unfold py_slice. f_equal. lia. Qed.

Lemma py_slice_window {A : Type} (a : list A) (i n : nat) :
  py_slice a (i * n) ((i + 1) * n) = take n (drop (i * n) a).
Proof. unfold py_slice. f_equal. lia. Qed.

(** C4: [gen_batch] cuts the data into windows in sequence order. With
    raw sequences of equal length whose values fit the [int32] matrices, and
    positive batch_size and num_steps, and for bpl = len(raw_x) //
    batch_size: row r of each stacked matrix is the run of bpl raw elements
    that starts at bpl*r; exactly bpl // num_steps pairs are yielded; and
    in the i-th of them, in the order of the yields, row r of x (of y) is
    the run of num_steps elements that starts at column i*num_steps of row
    r of the stacked matrix, that is its columns i*num_steps to
    (i+1)*num_steps - 1. *)
Theorem gen_batch_windows (raw_x raw_y : list Z) (batch_size' num_steps : nat) :
  length raw_x = length raw_y ->
  (1 <= batch_size')%nat -> (1 <= num_steps)%nat ->
  Forall is_int32 raw_x -> Forall is_int32 raw_y ->
  let bpl := (length raw_x / batch_size')%nat in
  exists (data_x data_y : matrix) (batches : list (matrix * matrix)),
    stack raw_x raw_y batch_size' bpl = Ok (data_x, data_y) /\
    gen_batch (raw_x, raw_y) batch_size' num_steps = Ok batches /\
    length data_x = batch_size' /\ length data_y = batch_size' /\
    length batches = (bpl / num_steps)%nat /\
    forall r : nat, (r < batch_size')%nat ->
      exists row_x row_y : list Z,
        data_x !! r = Some row_x /\ data_y !! r = Some row_y /\
        row_x = take bpl (drop (bpl * r) raw_x) /\
        row_y = take bpl (drop (bpl * r) raw_y) /\
        forall i : nat, (i < bpl / num_steps)%nat ->
          exists x y : matrix,
            batches !! i = Some (x, y) /\
            length x = batch_size' /\ length y = batch_size' /\
            x !! r = Some (take num_steps (drop (i * num_steps) row_x)) /\
            y !! r = Some (take num_steps (drop (i * num_steps) row_y)).
Proof.
  intros Hlen Hbs Hns Hx Hy bpl.
  exists (map (stacked_row bpl raw_x) (range batch_size')),
    (map (stacked_row bpl raw_y) (range batch_size')),
    (batches_of raw_x raw_y batch_size' num_steps).
  split.
  { apply stack_ok; [|rewrite <- Hlen]; by apply bpl_fits. }
  split; [by apply gen_batch_ok|].
  unfold range at 1 2. rewrite !length_map, !length_seq.
  split; [done|]. split; [done|].
  split; [apply length_batches_of|].
  intros r Hr.
  exists (stacked_row bpl raw_x r), (stacked_row bpl raw_y r).
  rewrite !lookup_stacked by done.
  rewrite !stacked_row_int32, !py_slice_width by done.
  split; [done|]. split; [done|]. split; [done|]. split; [done|].
  intros i Hi. eexists _, _.
  split; [by apply lookup_batches_of|].
  unfold columns, range. rewrite !length_map, !length_seq.
  split; [done|]. split; [done|].
  rewrite !list_lookup_fmap, !lookup_seq_lt by done. simpl.
  rewrite !stacked_row_int32, !py_slice_width, !py_slice_window by done.
  done.
Qed.

Lemma gen_batch_windows_witness :
  exists (data_x data_y : matrix) (batches : list (matrix * matrix)),
    stack [1; 0; 1; 1; 0; 0; 1; 0; 1; 1] [0; 1; 1; 0; 1; 0; 0; 1; 1; 1] 2 5
    = Ok (data_x, data_y) /\
    gen_batch ([1; 0; 1; 1; 0; 0; 1; 0; 1; 1], [0; 1; 1; 0; 1; 0; 0; 1; 1; 1]) 2 2
    = Ok batches /\
    length data_x = 2%nat /\ length data_y = 2%nat /\
    length batches = 2%nat /\
    forall r : nat, (r < 2)%nat ->
      exists row_x row_y : list Z,
        data_x !! r = Some row_x /\ data_y !! r = Some row_y /\
        row_x = take 5 (drop (5 * r) [1; 0; 1; 1; 0; 0; 1; 0; 1; 1]) /\
        row_y = take 5 (drop (5 * r) [0; 1; 1; 0; 1; 0; 0; 1; 1; 1]) /\
        forall i : nat, (i < 2)%nat ->
          exists x y : matrix,
            batches !! i = Some (x, y) /\
            length x = 2%nat /\ length y = 2%nat /\
            x !! r = Some (take 2 (drop (i * 2) row_x)) /\
            y !! r = Some (take 2 (drop (i * 2) row_y)).
Proof.
  apply (gen_batch_windows [1; 0; 1; 1; 0; 0; 1; 0; 1; 1]
           [0; 1; 1; 0; 1; 0; 0; 1; 1; 1] 2 2);
    [reflexivity | lia | lia | |];
    repeat constructor; unfold is_int32; lia.
Defined.

(** C9: batching keeps inputs and labels aligned. With raw sequences of
    equal length whose values fit the [int32] matrices, and positive
    batch_size and num_steps: in the i-th yielded pair (x, y), for every row
    r and column c, [x[r][c] = raw_x[j]] and [y[r][c] = raw_y[j]] for the
    same index j = (len(raw_x) // batch_size) * r + i * num_steps + c. *)
Theorem gen_batch_alignment (raw_x raw_y : list Z) (batch_size' num_steps : nat) :
  length raw_x = length raw_y ->
  (1 <= batch_size')%nat -> (1 <= num_steps)%nat ->
  Forall is_int32 raw_x -> Forall is_int32 raw_y ->
  exists batches,
    gen_batch (raw_x, raw_y) batch_size' num_steps = Ok batches /\
    forall (i : nat) (x y : matrix) (r c : nat),
      batches !! i = Some (x, y) ->
      (r < batch_size')%nat -> (c < num_steps)%nat ->
      let j := (length raw_x / batch_size' * r + i * num_steps + c)%nat in
      exists (row_x row_y : list Z) (v w : Z),
        x !! r = Some row_x /\ row_x !! c = Some v /\
        y !! r = Some row_y /\ row_y !! c = Some w /\
        raw_x !! j = Some v /\ raw_y !! j = Some w.
Proof.
  intros Hlen Hbs Hns Hx Hy.
  exists (batches_of raw_x raw_y batch_size' num_steps).
  split; [by apply gen_batch_ok|].
  intros i x y r c Hxy Hr Hc j.
  apply batches_of_inv in Hxy as (Hi & -> & ->).
  pose proof (bpl_fits (length raw_x) batch_size' Hbs) as Hfits.
  pose proof (window_fits _ _ _ Hns Hi) as Hwin.
  destruct (window_lookup raw_x batch_size' _ num_steps i r c Hfits Hwin Hr Hc)
    as (row_x & v & Hrx & Hv & Hjx).
  destruct (window_lookup raw_y batch_size' (length raw_x / batch_size')
              num_steps i r c ltac:(lia) Hwin Hr Hc)
    as (row_y & w & Hry & Hw & Hjy).
  exists row_x, row_y, v, w.
  rewrite to_int32_id in Hv
    by (rewrite Forall_lookup in Hx; exact (Hx _ _ Hjx)).
  rewrite to_int32_id in Hw
    by (rewrite Forall_lookup in Hy; exact (Hy _ _ Hjy)).
  done.
Qed.

Lemma gen_batch_alignment_witness :
  exists batches,
    gen_batch ([1; 0; 1; 1; 0; 0; 1; 0; 1; 1], [0; 1; 1; 0; 1; 0; 0; 1; 1; 1]) 2 2
    = Ok batches /\
    forall (i : nat) (x y : matrix) (r c : nat),
      batches !! i = Some (x, y) -> (r < 2)%nat -> (c < 2)%nat ->
      exists (row_x row_y : list Z) (v w : Z),
        x !! r = Some row_x /\ row_x !! c = Some v /\
        y !! r = Some row_y /\ row_y !! c = Some w /\
        [1; 0; 1; 1; 0; 0; 1; 0; 1; 1] !! (5 * r + i * 2 + c)%nat = Some v /\
        [0; 1; 1; 0; 1; 0; 0; 1; 1; 1] !! (5 * r + i * 2 + c)%nat = Some w.
Proof.
  apply (gen_batch_alignment [1; 0; 1; 1; 0; 0; 1; 0; 1; 1]
           [0; 1; 1; 0; 1; 0; 0; 1; 1; 1] 2 2);
    [reflexivity | lia | lia | |];
    repeat constructor; unfold is_int32; lia.
Defined.

(** C10 (amended): on degenerate sizes [gen_batch] yields nothing and does
    not fail, provided the two sizes are positive.
    For raw sequences of equal length and positive batch_size and
    num_steps, if batch_size > len(raw_x) or num_steps > len(raw_x) //
    batch_size, the generator ends normally without a single batch. *)
Theorem gen_batch_degenerate (raw_x raw_y : list Z) (batch_size' num_steps : nat) :
  length raw_x = length raw_y ->
  (1 <= batch_size')%nat -> (1 <= num_steps)%nat ->
  (length raw_x < batch_size')%nat \/
  (length raw_x / batch_size' < num_steps)%nat ->
  gen_batch (raw_x, raw_y) batch_size' num_steps = Ok [].
Proof.
  intros Hlen Hbs Hns Hdeg. rewrite gen_batch_ok by done.
  f_equal. unfold batches_of.
  replace (length raw_x / batch_size' / num_steps)%nat with 0%nat; [done|].
  symmetry. apply Nat.div_small.
  destruct Hdeg as [Hbig|Hbig]; [|done].
  rewrite Nat.div_small by done. lia.
Qed.

Lemma gen_batch_degenerate_witness :
  gen_batch ([1; 0; 1], [0; 1; 1]) 5 2 = Ok []
  /\ gen_batch ([1; 0; 1; 1; 0; 0; 1], [0; 1; 1; 0; 1; 0; 0]) 2 4 = Ok [].
Proof.
  split.
  - apply (gen_batch_degenerate [1; 0; 1] [0; 1; 1] 5 2);
      [reflexivity | lia | lia | left; simpl; lia].
  - apply (gen_batch_degenerate [1; 0; 1; 1; 0; 0; 1] [0; 1; 1; 0; 1; 0; 0] 2 4);
      [reflexivity | lia | lia | right; simpl; lia].
Defined.

(** C10 as stated fails when num_steps is 0: three elements with
    batch_size 5 meet the premise batch_size > len(raw_x), the matrices of
    five empty rows are filled, and [0 // 0] raises [ZeroDivisionError]. *)
Lemma gen_batch_degenerate_zero_steps :
  ~ degenerate_yields_nothing [1; 0; 1] [0; 1; 1] 5 0.
Proof.
  intros Hclaim.
  assert (Hrun : gen_batch ([1; 0; 1], [0; 1; 1]) 5 0 = Ok [])
    by (apply Hclaim; [reflexivity | left; simpl; lia]).
  discriminate Hrun.
Qed.

(** C7 (amended): the data functions raise nothing on the sizes they are
    written for: [gen_data] returns for size 0 and for every size >= 8, and
    for these sizes only, for 1 <= size <= 7 it raises [IndexError];
    [gen_batch] returns for every pair of raw sequences of equal length,
    every batch_size >= 1 and every num_steps >= 1. *)
Theorem data_functions_raise_nothing (t : tape) (size : nat)
    (raw_x raw_y : list Z) (batch_size' num_steps : nat) :
  (succeeds (gen_data t size) <-> size = 0%nat \/ (8 <= size)%nat) /\
  ((1 <= size < 8)%nat -> gen_data t size = Raise IndexError) /\
  (length raw_x = length raw_y ->
   (1 <= batch_size')%nat -> (1 <= num_steps)%nat ->
   succeeds (gen_batch (raw_x, raw_y) batch_size' num_steps)).
Proof.
  split; [|split; [apply gen_data_small|]].
  - split.
    + intros [v Hv].
      destruct (decide (size = 0%nat)) as [?|Hpos]; [by left|].
      destruct (decide (8 <= size)%nat) as [?|Hsmall]; [by right|].
      rewrite gen_data_small in Hv by lia. discriminate Hv.
    + intros [->|Hsize].
      * eexists. apply gen_data_empty.
      * eexists. by apply gen_data_large.
  - intros Hlen Hbs Hns. eexists. by apply gen_batch_ok.
Qed.

Lemma data_functions_raise_nothing_witness :
  (succeeds (gen_data sample_tape 9) <-> 9%nat = 0%nat \/ (8 <= 9)%nat) /\
  gen_data sample_tape 4 = Raise IndexError /\
  succeeds (gen_batch ([1; 0; 1; 1; 0; 0; 1], [0; 1; 1; 0; 1; 0; 0]) 2 3).
Proof.
  destruct (data_functions_raise_nothing sample_tape 9
              [1; 0; 1; 1; 0; 0; 1] [0; 1; 1; 0; 1; 0; 0] 2 3)
    as (Hdata & _ & Hbatch).
  destruct (data_functions_raise_nothing sample_tape 4
              [1; 0; 1; 1; 0; 0; 1] [0; 1; 1; 0; 1; 0; 0] 2 3)
    as (_ & Hsmall & _).
  split; [exact Hdata|].
  split; [apply Hsmall; lia|]. apply Hbatch; [reflexivity | lia | lia].
Defined.

(** C7 as stated fails for the sizes 1 to 7: with size 3, [X[-3]] is read
    and then [X[-8]] raises [IndexError]. *)
Lemma gen_data_raises_size_3 : ~ succeeds (gen_data sample_tape 3).
Proof. intros [v Hv]. discriminate Hv. Qed.

(** ** gen_epochs *)

Lemma default_size_large : (8 <= default_size)%nat.
Proof. unfold default_size. lia. Qed.

Lemma gen_data_lengths (t : tape) (size : nat) (X Y : list Z) :
  gen_data t size = Ok (X, Y) -> length X = size /\ length Y = size.
Proof.
  intros Hrun.
  destruct (decide (8 <= size)%nat) as [Hsize|Hsmall].
  - rewrite gen_data_large in Hrun by done. injection Hrun as <- <-.
    rewrite length_np_random_choice2. unfold range.
    by rewrite length_map, length_seq.
  - destruct (decide (size = 0%nat)) as [->|Hpos].
    + rewrite gen_data_empty in Hrun. by injection Hrun as <- <-.
    + rewrite gen_data_small in Hrun by lia. discriminate Hrun.
Qed.

(** Whatever [gen_data] returns can be handed to [gen_batch]: two
    sequences of the same length whose values fit the [int32] matrices. *)
Lemma gen_data_output (t : tape) (size : nat) (X Y : list Z) :
  gen_data t size = Ok (X, Y) ->
  length X = length Y /\ Forall is_int32 X /\ Forall is_int32 Y.
Proof.
  intros Hrun. destruct (gen_data_lengths t size X Y Hrun) as [HX HY].
  split; [congruence|].
  destruct (decide (8 <= size)%nat) as [Hsize|Hsmall].
  - rewrite gen_data_large in Hrun by done. injection Hrun as <- <-.
    split; eapply Forall_impl;
      eauto using np_random_choice2_bits, labels_bits, is_bit_int32.
  - destruct (decide (size = 0%nat)) as [->|Hpos].
    + rewrite gen_data_empty in Hrun. by injection Hrun as <- <-.
    + rewrite gen_data_small in Hrun by lia. discriminate Hrun.
Qed.

Lemma gen_epochs_loop (tapes : nat -> tape) (num_steps n : nat) :
  (1 <= num_steps)%nat ->
  gen_epochs tapes n num_steps = Ok (map (epoch_of tapes num_steps) (range n)).
Proof.
  intros Hns. unfold gen_epochs, epoch_of.
  pose proof default_size_large as Hsize. revert Hsize.
  generalize default_size. intros size Hsize.
  induction n as [|n IH]; [done|].
  rewrite range_S, for_in_app, IH, bind_Ok. cbn [for_in].
  rewrite gen_data_large, bind_Ok by done.
  rewrite gen_batch_ok, !bind_Ok.
  - by rewrite map_app.
  - rewrite length_np_random_choice2. unfold range.
    by rewrite length_map, length_seq.
  - unfold batch_size. lia.
  - done.
Qed.

Lemma length_epoch_of (tapes : nat -> tape) (num_steps i : nat) :
  length (epoch_of tapes num_steps i)
  = (default_size / batch_size / num_steps)%nat.
Proof.
  unfold epoch_of. by rewrite length_batches_of, length_np_random_choice2.
Qed.

(** ** train_network *)

(** Linear arithmetic with divisions and remainders by constants. *)
Ltac div_lia := zify; Z.div_mod_to_equations; lia.

Lemma enumerate_snoc {A : Type} (xs : list A) (x : A) :
  enumerate (xs ++ [x]) = enumerate xs ++ [(length xs, x)].
Proof.
  unfold enumerate. rewrite length_app, Nat.add_1_r, seq_S.
  rewrite zip_with_app by (by rewrite length_seq). done.
Qed.

Lemma py_slice_snoc {A : Type} (a : list A) (x : A) (lo : nat) :
  (lo <= length a)%nat ->
  py_slice (a ++ [x]) lo (S (length a)) = py_slice a lo (length a) ++ [x].
Proof.
  intros Hlo. unfold py_slice.
  rewrite drop_app_le by done.
  rewrite take_app_ge by (rewrite length_drop; lia).
  rewrite length_drop.
  replace (S (length a) - lo - (length a - lo))%nat with 1%nat by lia.
  rewrite (take_ge (drop lo a)) by (rewrite length_drop; lia). done.
Qed.

Lemma py_slice_app_le {A : Type} (a b : list A) (lo hi : nat) :
  (hi <= length a)%nat -> py_slice (a ++ b) lo hi = py_slice a lo hi.
Proof.
  intros Hhi. unfold py_slice.
  destruct (decide (lo <= length a)%nat) as [Hlo|Hlo].
  - rewrite drop_app_le by done.
    rewrite take_app_le by (rewrite length_drop; lia). done.
  - replace (hi - lo)%nat with 0%nat by lia. done.
Qed.

Lemma py_slice_empty {A : Type} (a : list A) (lo hi : nat) :
  (hi <= lo)%nat -> py_slice a lo hi = [].
Proof. intros Hhi. unfold py_slice. by replace (hi - lo)%nat with 0%nat by lia. Qed.

Lemma pending_from_le (n : nat) : (pending_from n <= n)%nat.
Proof. unfold pending_from. case_decide; [lia|div_lia]. Qed.

Lemma pending_from_idle (n : nat) :
  logs_at n = false -> pending_from (S n) = pending_from n.
Proof.
  unfold logs_at, pending_from. intros Hlog.
  apply andb_false_iff in Hlog as [Hmod|Hzero].
  - apply Nat.eqb_neq in Hmod. repeat case_decide; div_lia.
  - apply Nat.ltb_ge in Hzero. repeat case_decide; div_lia.
Qed.

Lemma pending_from_logged (n : nat) :
  logs_at n = true ->
  pending_from (S n) = S n /\
  pending_from n = (if decide (n <= 100)%nat then 0 else n - 99)%nat.
Proof.
  unfold logs_at, pending_from. intros Hlog.
  apply andb_true_iff in Hlog as [Hmod Hpos].
  apply Nat.eqb_eq in Hmod. apply Nat.ltb_lt in Hpos.
  repeat case_decide; div_lia.
Qed.

Section train_network_properties.
Context {session rnn_state loss : Type}.
Variable sess_run :
  session -> matrix -> matrix -> rnn_state -> loss * rnn_state * session.
Variable np_zeros_state : nat -> nat -> rnn_state.
Variable loss_zero : loss.
Variable loss_add : loss -> loss -> loss.
Variable loss_div100 : loss -> loss.

Local Abbreviation step := (step_body sess_run loss_zero loss_add loss_div100).
Local Abbreviation entries := (epoch_entries loss_zero loss_add loss_div100).
Local Abbreviation acc := (accumulated loss_zero loss_add).

Lemma run_epoch_snoc (sess : session) (st : rnn_state)
    (epoch : list (matrix * matrix)) (X Y : matrix) :
  run_epoch sess_run sess st (epoch ++ [(X, Y)])
  = let '(ls, st', sess') := run_epoch sess_run sess st epoch in
    let '(l, st'', sess'') := sess_run sess' X Y st' in
    (ls ++ [l], st'', sess'').
Proof.
  revert sess st. induction epoch as [|[X' Y'] epoch IH]; intros sess st; simpl.
  - by destruct (sess_run sess X Y st) as [[l st'] sess'].
  - destruct (sess_run sess X' Y' st) as [[l st'] sess']. rewrite IH.
    destruct (run_epoch sess_run sess' st' epoch) as [[ls st''] sess''].
    by destruct (sess_run sess'' X Y st'') as [[l' st3] sess3].
Qed.

(** One loss per step. *)
Lemma length_run_epoch (sess : session) (st : rnn_state)
    (epoch : list (matrix * matrix)) :
  length (run_epoch sess_run sess st epoch).1.1 = length epoch.
Proof.
  revert sess st. induction epoch as [|[X Y] epoch IH]; intros sess st; simpl;
    [done|].
  destruct (sess_run sess X Y st) as [[l st'] sess']. specialize (IH sess' st').
  destruct (run_epoch sess_run sess' st' epoch) as [[ls st''] sess''].
  simpl in *. by rewrite IH.
Qed.

Lemma accumulated_app (ls ls' : list loss) (n : nat) :
  (n < length ls)%nat -> acc (ls ++ ls') n = acc ls n.
Proof. intros Hn. unfold accumulated. by rewrite py_slice_app_le by lia. Qed.

Lemma epoch_entries_snoc (ls : list loss) (l : loss) :
  entries (ls ++ [l])
  = entries ls
    ++ (if logs_at (length ls)
        then [loss_div100 (acc (ls ++ [l]) (length ls))] else []).
Proof.
  unfold epoch_entries.
  rewrite length_app, Nat.add_1_r, range_S, filter_app, map_app. f_equal.
  - apply map_ext_in. intros n Hn.
    apply list_elem_of_In, list_elem_of_filter in Hn as [_ Hn].
    apply list_elem_of_In, in_seq in Hn. by rewrite accumulated_app by lia.
  - rewrite filter_cons, filter_nil.
    destruct (logs_at (length ls)); by case_decide.
Qed.

Lemma step_body_eq (s : tn_state) (n : nat) (X Y : matrix) :
  step s (n, (X, Y))
  = let '(l, st, sess) := sess_run (tn_sess s) X Y (tn_training_state s) in
    if logs_at n
    then TnState sess
           (tn_training_losses s ++ [loss_div100 (loss_add (tn_training_loss s) l)])
           loss_zero st
    else TnState sess (tn_training_losses s)
           (loss_add (tn_training_loss s) l) st.
Proof. done. Qed.

(** The state after the steps of one epoch, started with an empty
    accumulator. *)
Lemma steps_invariant (s0 : tn_state) (epoch : list (matrix * matrix)) :
  tn_training_loss s0 = loss_zero ->
  foldl step s0 (enumerate epoch)
  = let '(ls, st, sess) :=
      run_epoch sess_run (tn_sess s0) (tn_training_state s0) epoch in
    TnState sess (tn_training_losses s0 ++ entries ls)
      (foldl loss_add loss_zero
         (py_slice ls (pending_from (length ls)) (length ls)))
      st.
Proof.
  intros Hzero. induction epoch as [|[X Y] epoch IH] using rev_ind.
  - simpl. rewrite app_nil_r. destruct s0; simpl in *. by subst.
  - rewrite enumerate_snoc, foldl_snoc, IH, run_epoch_snoc.
    pose proof (length_run_epoch (tn_sess s0) (tn_training_state s0) epoch)
      as Hlen.
    destruct (run_epoch sess_run (tn_sess s0) (tn_training_state s0) epoch)
      as [[ls st] sess].
    simpl in Hlen. rewrite <- Hlen. clear IH. rewrite step_body_eq.
    cbn [tn_sess tn_training_losses tn_training_loss tn_training_state].
    destruct (sess_run sess X Y st) as [[l st'] sess'].
    rewrite epoch_entries_snoc, length_app, Nat.add_1_r.
    pose proof (pending_from_le (length ls)) as Hle.
    destruct (logs_at (length ls)) eqn:Hlog.
    + destruct (pending_from_logged _ Hlog) as [Hnext Hsince].
      rewrite Hnext, (py_slice_empty (ls ++ [l])) by lia. simpl.
      unfold accumulated. rewrite <- Hsince.
      rewrite py_slice_snoc, foldl_snoc by done.
      by rewrite <- app_assoc.
    + rewrite (pending_from_idle _ Hlog).
      rewrite py_slice_snoc, foldl_snoc by done.
      by rewrite app_nil_r.
Qed.

Lemma epochs_invariant (state_size : nat) (epochs : list (list (matrix * matrix)))
    (s : tn_state) :
  tn_training_losses
    (foldl (epoch_body sess_run np_zeros_state loss_zero loss_add loss_div100
              state_size) s epochs)
  = tn_training_losses s
    ++ logged_entries loss_zero loss_add loss_div100
         (run_epochs sess_run np_zeros_state state_size (tn_sess s) epochs).
Proof.
  revert s. induction epochs as [|epoch epochs IH]; intros s.
  - simpl. by rewrite app_nil_r.
  - simpl foldl. rewrite IH. unfold epoch_body.
    rewrite steps_invariant by done.
    cbn [tn_sess tn_training_state tn_training_losses run_epochs].
    destruct (run_epoch sess_run (tn_sess s)
                (np_zeros_state batch_size state_size) epoch)
      as [[ls st] sess].
    cbn [tn_sess tn_training_losses]. unfold logged_entries.
    cbn [map concat]. by rewrite <- !app_assoc.
Qed.

(** The list returned by the loops is the list of the logged entries. *)
Lemma train_loop_logged (state_size : nat) (sess0 : session)
    (epochs : list (list (matrix * matrix))) :
  train_loop sess_run np_zeros_state loss_zero loss_add loss_div100
    state_size sess0 epochs
  = logged_entries loss_zero loss_add loss_div100
      (run_epochs sess_run np_zeros_state state_size sess0 epochs).
Proof. unfold train_loop. by rewrite epochs_invariant. Qed.

(** C6: the training loop logs the loss periodically. [train_network]
    returns, for the epochs that [gen_epochs] yields and the losses that the
    session gives at their steps, the entries logged at the steps with
    step % 100 == 0 and step > 0 and at no other step, in order; an entry is
    the loss accumulated since the previous entry of the epoch (since the
    start of the epoch for the first one), divided by 100, and the
    accumulator restarts from zero after it. *)
Theorem train_network_logs (tapes : nat -> tape) (sess0 : session)
    (num_epochs num_steps state_size : nat) :
  (1 <= num_steps)%nat ->
  exists epochs : list (list (matrix * matrix)),
    gen_epochs tapes num_epochs num_steps = Ok epochs /\
    length epochs = num_epochs /\
    Forall (fun epoch =>
              length epoch = (default_size / batch_size / num_steps)%nat)
           epochs /\
    train_network sess_run np_zeros_state loss_zero loss_add loss_div100
      tapes sess0 num_epochs num_steps state_size
    = Ok (logged_entries loss_zero loss_add loss_div100
            (run_epochs sess_run np_zeros_state state_size sess0 epochs)).
Proof.
  intros Hns. exists (map (epoch_of tapes num_steps) (range num_epochs)).
  split; [by apply gen_epochs_loop|].
  split; [unfold range; by rewrite length_map, length_seq|].
  split.
  - apply Forall_forall. intros epoch Hepoch.
    apply list_elem_of_In, in_map_iff in Hepoch as (i & <- & _).
    apply length_epoch_of.
  - unfold train_network. rewrite gen_epochs_loop, bind_Ok by done.
    by rewrite train_loop_logged.
Qed.
End train_network_properties.

(** Two epochs of 205 and 101 steps: entries at the steps 100 and 200 of
    the first one, and at step 100 of the second; what the first epoch had
    accumulated after step 200 is dropped. *)
Example train_loop_two_epochs :
  train_loop counting_run (fun _ _ => tt) 0 Z.add (fun z => z / 100) 4 0%nat
    [replicate 205 ([], []); replicate 101 ([], [])]
  = [50; 150; 257].
Proof. vm_compute. reflexivity. Qed.

Lemma train_network_logs_witness :
  (1 <= 5)%nat /\
  exists epochs : list (list (matrix * matrix)),
    gen_epochs (fun _ => sample_tape) 1 5 = Ok epochs /\
    length epochs = 1%nat /\
    Forall (fun epoch => length epoch = (default_size / batch_size / 5)%nat)
           epochs /\
    train_network counting_run (fun _ _ => tt) 0 Z.add (fun z => z / 100)
      (fun _ => sample_tape) 0%nat 1 5 4
    = Ok (logged_entries 0 Z.add (fun z => z / 100)
            (run_epochs counting_run (fun _ _ => tt) 4 0%nat epochs)).
Proof.
  split; [lia|].
  apply (train_network_logs counting_run (fun _ _ => tt) 0 Z.add
           (fun z => z / 100) (fun _ => sample_tape) 0%nat 1 5 4).
  lia.
Defined.

(** ** The functions on small inputs *)

Example gen_data_sample :
  gen_data sample_tape 10
  = Ok ([1; 0; 1; 0; 1; 0; 1; 0; 1; 0], [1; 1; 1; 1; 0; 1; 0; 1; 0; 1]).
Proof. vm_compute. reflexivity. Qed.

Example gen_batch_sample :
  gen_batch ([1; 2; 3; 4; 5; 6; 7; 8; 9; 10; 11; 12],
             [21; 22; 23; 24; 25; 26; 27; 28; 29; 30; 31; 32]) 2 2
  = Ok [([[1; 2]; [7; 8]], [[21; 22]; [27; 28]]);
        ([[3; 4]; [9; 10]], [[23; 24]; [29; 30]]);
        ([[5; 6]; [11; 12]], [[25; 26]; [31; 32]])].
Proof. vm_compute. reflexivity. Qed.

(** A value that does not fit 32 bits wraps when it is stored in [data_x]. *)
Example gen_batch_stores_int32 :
  gen_batch ([2 ^ 31], [1]) 1 1 = Ok [([[- 2 ^ 31]], [[1]])].
Proof. vm_compute. reflexivity. Qed.

(** Sequences of different lengths: the second row of [data_y] is assigned
    an empty slice. *)
Example gen_batch_unequal_lengths :
  gen_batch ([1; 0; 1; 1; 0; 0; 1; 0; 1; 1], [0; 1; 1]) 3 2 = Raise ValueError.
Proof. vm_compute. reflexivity. Qed.

Example gen_batch_zero_num_steps :
  gen_batch ([1; 0], [0; 1]) 3 0 = Raise ZeroDivisionError.
Proof. vm_compute. reflexivity. Qed.

Example gen_batch_zero_batch_size :
  gen_batch ([1; 0], [0; 1]) 0 1 = Raise ZeroDivisionError.
Proof. vm_compute. reflexivity. Qed.

(** * Further properties of the code *)

(** ** gen_data *)

Lemma label_at_ext (t1 t2 : tape) (size i : nat) :
  (8 <= size)%nat -> (i < size)%nat ->
  (forall k, (k < size)%nat ->
     choice2 t1 k = choice2 t2 k /\ rand t1 k = rand t2 k) ->
  label_at t1 size i = label_at t2 size i.
Proof.
  intros Hsize Hi Hagree. unfold label_at, lagged_bit.
  destruct (Hagree (lag_index size i 3) ltac:(apply lag_index_lt; lia)) as [-> _].
  destruct (Hagree (lag_index size i 8) ltac:(apply lag_index_lt; lia)) as [-> _].
  destruct (Hagree i Hi) as [_ ->]. done.
Qed.

(** X1: [gen_data(size)] reads the first [size] bits and the first [size]
    draws of the generator and nothing else: two generators that agree on
    them give the same outcome, result or exception, for every size. *)
Theorem gen_data_reads_prefix (t1 t2 : tape) (size : nat) :
  (forall k, (k < size)%nat ->
     choice2 t1 k = choice2 t2 k /\ rand t1 k = rand t2 k) ->
  gen_data t1 size = gen_data t2 size.
Proof.
  intros Hagree.
  destruct (decide (8 <= size)%nat) as [Hsize|Hsmall].
  - rewrite !gen_data_large by done. do 2 f_equal.
    + unfold np_random_choice2. apply map_ext_in. intros k Hk.
      apply in_seq in Hk. by destruct (Hagree k ltac:(lia)) as [-> _].
    + apply map_ext_in. intros i Hi. apply in_seq in Hi.
      apply label_at_ext; [done|lia|done].
  - destruct (decide (size = 0%nat)) as [->|Hpos]; [done|].
    by rewrite !gen_data_small by lia.
Qed.

Lemma gen_data_reads_prefix_witness :
  gen_data sample_tape 9
  = gen_data (Tape (fun k => Nat.even k && (k <? 9)%nat)
                   (fun k => if (k <? 9)%nat then rand sample_tape k else 0%Q)) 9.
Proof.
  apply (gen_data_reads_prefix sample_tape
           (Tape (fun k => Nat.even k && (k <? 9)%nat)
                 (fun k => if (k <? 9)%nat then rand sample_tape k else 0%Q)) 9).
  intros k Hk. simpl. destruct (Nat.ltb_spec k 9) as [_|?]; [|lia].
  by rewrite andb_true_r.
Defined.

(** X2: asking for more data keeps what was there, except the first
    eight labels: for 8 <= size <= size', the [X] of [gen_data(size)] is the
    prefix of the [X] of [gen_data(size')], and the two [Y] agree at every
    index from 8 to size - 1. *)
Theorem gen_data_extend (t : tape) (size size' : nat) :
  (8 <= size)%nat -> (size <= size')%nat ->
  exists X Y X' Y' : list Z,
    gen_data t size = Ok (X, Y) /\ gen_data t size' = Ok (X', Y') /\
    X = take size X' /\
    forall i : nat, (8 <= i < size)%nat -> Y !! i = Y' !! i.
Proof.
  intros Hsize Hle.
  exists (np_random_choice2 t size), (map (label_at t size) (range size)),
    (np_random_choice2 t size'), (map (label_at t size') (range size')).
  split; [by apply gen_data_large|].
  split; [apply gen_data_large; lia|].
  split.
  - unfold np_random_choice2. rewrite <- fmap_take, take_seq.
    by rewrite Nat.min_l by done.
  - intros i Hi. rewrite !lookup_labels by lia. f_equal.
    unfold label_at, lagged_bit, lag_index.
    destruct (decide (3 <= i)%nat); [|lia].
    destruct (decide (8 <= i)%nat); [done|lia].
Qed.

Lemma gen_data_extend_witness :
  (8 <= 9)%nat /\ (9 <= 12)%nat /\
  exists X Y X' Y' : list Z,
    gen_data sample_tape 9 = Ok (X, Y) /\ gen_data sample_tape 12 = Ok (X', Y') /\
    X = take 9 X' /\
    forall i : nat, (8 <= i < 9)%nat -> Y !! i = Y' !! i.
Proof.
  split; [lia|]. split; [lia|]. apply (gen_data_extend sample_tape 9 12); lia.
Defined.

(** ** gen_batch *)

(** [gen_batch] needs no more than as many labels as inputs. *)
Lemma gen_batch_ok_le (raw_x raw_y : list Z) (batch_size' num_steps : nat) :
  (length raw_x <= length raw_y)%nat ->
  (1 <= batch_size')%nat -> (1 <= num_steps)%nat ->
  gen_batch (raw_x, raw_y) batch_size' num_steps
  = Ok (batches_of raw_x raw_y batch_size' num_steps).
Proof.
  intros Hlen Hbs Hns. unfold gen_batch.
  rewrite floordiv_ok, bind_Ok by done.
  pose proof (bpl_fits (length raw_x) batch_size' Hbs) as Hfits.
  rewrite stack_ok, bind_Ok by lia.
  by rewrite floordiv_ok, bind_Ok by done.
Qed.

Lemma py_slice_take {A : Type} (a : list A) (n lo hi : nat) :
  (hi <= n)%nat -> py_slice (take n a) lo hi = py_slice a lo hi.
Proof.
  intros Hhi. unfold py_slice.
  destruct (decide (lo <= hi)%nat) as [Hlo|Hlo].
  - replace n with (lo + (n - lo))%nat by lia.
    rewrite <- take_drop_commute, take_take.
    by rewrite Nat.min_l by lia.
  - by replace (hi - lo)%nat with 0%nat by lia.
Qed.

Lemma stacked_row_take (raw : list Z) (n batch_size' bpl r : nat) :
  (bpl * batch_size' <= n)%nat -> (r < batch_size')%nat ->
  stacked_row bpl (take n raw) r = stacked_row bpl raw r.
Proof.
  intros Hfits Hr. unfold stacked_row. rewrite py_slice_take; [done|nia].
Qed.

(** X3: [gen_batch] divides by its two sizes without a check. With
    batch_size = 0 it raises [ZeroDivisionError] whatever the data; with
    num_steps = 0 (and a positive batch_size, and at least as many labels as
    inputs) it fills the matrices and then raises [ZeroDivisionError]. *)
Theorem gen_batch_zero_division (raw_x raw_y : list Z)
    (batch_size' num_steps : nat) :
  gen_batch (raw_x, raw_y) 0 num_steps = Raise ZeroDivisionError /\
  ((length raw_x <= length raw_y)%nat -> (1 <= batch_size')%nat ->
   gen_batch (raw_x, raw_y) batch_size' 0 = Raise ZeroDivisionError).
Proof.
  split; [done|]. intros Hlen Hbs. unfold gen_batch.
  rewrite floordiv_ok, bind_Ok by done.
  pose proof (bpl_fits (length raw_x) batch_size' Hbs) as Hfits.
  by rewrite stack_ok, bind_Ok by lia.
Qed.

Lemma gen_batch_zero_division_witness :
  gen_batch ([1; 0; 1], [0; 1; 1]) 0 2 = Raise ZeroDivisionError /\
  gen_batch ([1; 0; 1], [0; 1; 1]) 2 0 = Raise ZeroDivisionError.
Proof.
  destruct (gen_batch_zero_division [1; 0; 1] [0; 1; 1] 2 2) as [Hbs _].
  destruct (gen_batch_zero_division [1; 0; 1] [0; 1; 1] 2 0) as [_ Hns].
  split; [exact Hbs|]. apply Hns; simpl; lia.
Defined.

(** X4: labels beyond the length of the inputs are ignored: when [raw_y]
    is at least as long as [raw_x], [gen_batch] returns, and returns what it
    returns for [raw_y] cut to the length of [raw_x]. *)
Theorem gen_batch_longer_labels (raw_x raw_y : list Z)
    (batch_size' num_steps : nat) :
  (length raw_x <= length raw_y)%nat ->
  (1 <= batch_size')%nat -> (1 <= num_steps)%nat ->
  succeeds (gen_batch (raw_x, raw_y) batch_size' num_steps) /\
  gen_batch (raw_x, raw_y) batch_size' num_steps
  = gen_batch (raw_x, take (length raw_x) raw_y) batch_size' num_steps.
Proof.
  intros Hlen Hbs Hns.
  rewrite (gen_batch_ok_le raw_x raw_y) by done.
  rewrite (gen_batch_ok_le raw_x (take (length raw_x) raw_y))
    by (rewrite ?length_take; lia).
  split; [by eexists|]. f_equal. unfold batches_of.
  pose proof (bpl_fits (length raw_x) batch_size' Hbs) as Hfits.
  apply map_ext. intros i. f_equal. f_equal.
  apply map_ext_in. intros r Hr. apply in_seq in Hr.
  symmetry. apply stacked_row_take with (batch_size' := batch_size'); lia.
Qed.

Lemma gen_batch_longer_labels_witness :
  succeeds (gen_batch ([1; 0; 1; 1], [0; 1; 1; 0; 1; 1]) 2 2) /\
  gen_batch ([1; 0; 1; 1], [0; 1; 1; 0; 1; 1]) 2 2
  = gen_batch ([1; 0; 1; 1], take 4 [0; 1; 1; 0; 1; 1]) 2 2.
Proof.
  apply (gen_batch_longer_labels [1; 0; 1; 1] [0; 1; 1; 0; 1; 1] 2 2);
    simpl; lia.
Defined.

Lemma np_zeros_shape (rows cols : nat) : has_shape (np_zeros rows cols) rows cols.
Proof.
  unfold has_shape, np_zeros. split; [apply length_replicate|].
  apply Forall_replicate, length_replicate.
Qed.

(** A row assignment inside the matrix keeps its shape, and fails with
    [ValueError] only. *)
Lemma set_row_shape (m : matrix) (i rows cols : nat) (v : list Z) :
  has_shape m rows cols -> (i < rows)%nat ->
  set_row m i v = Raise ValueError \/
  exists m', set_row m i v = Ok m' /\ has_shape m' rows cols.
Proof.
  intros [Hrows Hcols] Hi. unfold set_row.
  destruct (lookup_lt_is_Some_2 m i ltac:(lia)) as [old Hold]. rewrite Hold.
  assert (Hlen : length old = cols)
    by (rewrite Forall_lookup in Hcols; exact (Hcols i old Hold)).
  destruct (decide (length v = length old)) as [Hv|Hv].
  - right. eexists. split; [done|]. split; [by rewrite length_insert|].
    apply Forall_insert; [done|]. rewrite length_map. congruence.
  - destruct v as [|c [|c' v]]; [by left| |by left].
    right. eexists. split; [done|]. split; [by rewrite length_insert|].
    apply Forall_insert; [done|]. by rewrite length_replicate.
Qed.

Lemma fill_body_shape (raw_x raw_y : list Z) (rows cols i : nat)
    (data_x data_y : matrix) :
  has_shape data_x rows cols -> has_shape data_y rows cols -> (i < rows)%nat ->
  fill_body raw_x raw_y cols (data_x, data_y) i = Raise ValueError \/
  exists data_x' data_y',
    fill_body raw_x raw_y cols (data_x, data_y) i = Ok (data_x', data_y') /\
    has_shape data_x' rows cols /\ has_shape data_y' rows cols.
Proof.
  intros Hx Hy Hi. unfold fill_body.
  destruct (set_row_shape data_x i rows cols
              (py_slice raw_x (cols * i) (cols * (i + 1))) Hx Hi)
    as [->|(data_x' & -> & Hx')]; [by left|].
  rewrite bind_Ok.
  destruct (set_row_shape data_y i rows cols
              (py_slice raw_y (cols * i) (cols * (i + 1))) Hy Hi)
    as [->|(data_y' & -> & Hy')]; [by left|].
  right. by exists data_x', data_y'.
Qed.

Lemma fill_loop_shape (raw_x raw_y : list Z) (rows cols k : nat)
    (data_x data_y : matrix) :
  has_shape data_x rows cols -> has_shape data_y rows cols -> (k <= rows)%nat ->
  for_in (fill_body raw_x raw_y cols) (data_x, data_y) (range k)
  = Raise ValueError \/
  exists data_x' data_y',
    for_in (fill_body raw_x raw_y cols) (data_x, data_y) (range k)
    = Ok (data_x', data_y') /\
    has_shape data_x' rows cols /\ has_shape data_y' rows cols.
Proof.
  intros Hx Hy. induction k as [|k IH]; intros Hk.
  - right. by exists data_x, data_y.
  - rewrite range_S, for_in_app.
    destruct (IH ltac:(lia)) as [->|(data_x' & data_y' & -> & Hx' & Hy')];
      [by left|].
    rewrite bind_Ok. cbn [for_in].
    destruct (fill_body_shape raw_x raw_y rows cols k data_x' data_y' Hx' Hy'
                ltac:(lia))
      as [->|(data_x'' & data_y'' & -> & Hx'' & Hy'')]; [by left|].
    right. by exists data_x'', data_y''.
Qed.

Lemma py_slice_beyond {A : Type} (a : list A) (lo hi : nat) :
  (length a <= lo)%nat -> py_slice a lo hi = [].
Proof. intros Hlo. unfold py_slice. by rewrite drop_ge, take_nil by done. Qed.

(** X5: too few labels are an error: when no label is left for the last
    row of [data_y] (len(raw_y) <= bpl * (batch_size - 1), with
    bpl = len(raw_x) // batch_size >= 1), [gen_batch] raises [ValueError],
    whatever num_steps. *)
Theorem gen_batch_short_labels (raw_x raw_y : list Z)
    (batch_size' num_steps : nat) :
  (1 <= batch_size' <= length raw_x)%nat ->
  (length raw_y <= length raw_x / batch_size' * (batch_size' - 1))%nat ->
  gen_batch (raw_x, raw_y) batch_size' num_steps = Raise ValueError.
Proof.
  intros Hbs Hshort. unfold gen_batch.
  rewrite floordiv_ok, bind_Ok by lia.
  set (bpl := (length raw_x / batch_size')%nat) in *.
  assert (Hbpl : (1 <= bpl)%nat).
  { unfold bpl. apply Nat.div_str_pos. lia. }
  enough (Hstack : stack raw_x raw_y batch_size' bpl = Raise ValueError)
    by (by rewrite Hstack).
  unfold stack. destruct batch_size' as [|b]; [lia|].
  rewrite range_S, for_in_app.
  destruct (fill_loop_shape raw_x raw_y (S b) bpl b (np_zeros (S b) bpl)
              (np_zeros (S b) bpl) (np_zeros_shape _ _) (np_zeros_shape _ _)
              ltac:(lia))
    as [->|(data_x & data_y & -> & Hx & Hy)]; [done|].
  rewrite bind_Ok. cbn [for_in]. unfold fill_body.
  destruct (set_row_shape data_x b (S b) bpl
              (py_slice raw_x (bpl * b) (bpl * (b + 1))) Hx ltac:(lia))
    as [->|(data_x' & -> & _)]; [done|].
  rewrite bind_Ok, py_slice_beyond by (simpl in Hshort; lia).
  destruct Hy as [Hrows Hcols]. unfold set_row.
  destruct (lookup_lt_is_Some_2 data_y b ltac:(lia)) as [old Hold].
  rewrite Hold.
  assert (Hlen : length old = bpl)
    by (rewrite Forall_lookup in Hcols; exact (Hcols b old Hold)).
  destruct (decide (length (@nil Z) = length old)) as [Hnil|_]; [|done].
  simpl in Hnil. lia.
Qed.

Lemma gen_batch_short_labels_witness :
  gen_batch ([1; 0; 1; 1; 0; 0], [0; 1; 1; 0]) 3 2 = Raise ValueError.
Proof.
  apply (gen_batch_short_labels [1; 0; 1; 1; 0; 0] [0; 1; 1; 0] 3 2);
    simpl; lia.
Defined.

(** X6: whatever values the raw integer arrays hold ([np.int64], beyond
    the [int32] range or not), the batches hold their 32-bit two's
    complement values: in the i-th yielded pair, [x[r][c]] is
    the [int32] of [raw_x[j]] and [y[r][c]] the [int32] of [raw_y[j]], for
    j = (len(raw_x) // batch_size) * r + i * num_steps + c, and both lie in
    the [int32] range. *)
Theorem gen_batch_int32_values (raw_x raw_y : list Z)
    (batch_size' num_steps : nat) :
  Forall is_int64 raw_x -> Forall is_int64 raw_y ->
  (length raw_x <= length raw_y)%nat ->
  (1 <= batch_size')%nat -> (1 <= num_steps)%nat ->
  exists batches,
    gen_batch (raw_x, raw_y) batch_size' num_steps = Ok batches /\
    forall (i : nat) (x y : matrix) (r c : nat),
      batches !! i = Some (x, y) ->
      (r < batch_size')%nat -> (c < num_steps)%nat ->
      let j := (length raw_x / batch_size' * r + i * num_steps + c)%nat in
      exists (row_x row_y : list Z) (v w : Z),
        raw_x !! j = Some v /\ raw_y !! j = Some w /\
        x !! r = Some row_x /\ row_x !! c = Some (to_int32 v) /\
        y !! r = Some row_y /\ row_y !! c = Some (to_int32 w) /\
        is_int32 (to_int32 v) /\ is_int32 (to_int32 w).
Proof.
  intros _ _ Hlen Hbs Hns.
  exists (batches_of raw_x raw_y batch_size' num_steps).
  split; [by apply gen_batch_ok_le|].
  intros i x y r c Hxy Hr Hc j.
  apply batches_of_inv in Hxy as (Hi & -> & ->).
  pose proof (bpl_fits (length raw_x) batch_size' Hbs) as Hfits.
  pose proof (window_fits _ _ _ Hns Hi) as Hwin.
  destruct (window_lookup raw_x batch_size' _ num_steps i r c Hfits Hwin Hr Hc)
    as (row_x & v & Hrx & Hv & Hjx).
  destruct (window_lookup raw_y batch_size' (length raw_x / batch_size')
              num_steps i r c ltac:(lia) Hwin Hr Hc)
    as (row_y & w & Hry & Hw & Hjy).
  exists row_x, row_y, v, w.
  repeat split; try done; apply to_int32_range.
Qed.

Lemma gen_batch_int32_values_witness :
  exists batches,
    gen_batch ([2 ^ 31; 7; -1; 2 ^ 32], [1; 1; 0; 0]) 2 1 = Ok batches /\
    forall (i : nat) (x y : matrix) (r c : nat),
      batches !! i = Some (x, y) -> (r < 2)%nat -> (c < 1)%nat ->
      exists (row_x row_y : list Z) (v w : Z),
        [2 ^ 31; 7; -1; 2 ^ 32] !! (2 * r + i * 1 + c)%nat = Some v /\
        [1; 1; 0; 0] !! (2 * r + i * 1 + c)%nat = Some w /\
        x !! r = Some row_x /\ row_x !! c = Some (to_int32 v) /\
        y !! r = Some row_y /\ row_y !! c = Some (to_int32 w) /\
        is_int32 (to_int32 v) /\ is_int32 (to_int32 w).
Proof.
  apply (gen_batch_int32_values [2 ^ 31; 7; -1; 2 ^ 32] [1; 1; 0; 0] 2 1);
    try (simpl; lia); repeat constructor; unfold is_int64; lia.
Defined.

Lemma concat_windows {A : Type} (row : list A) (num_steps e : nat) :
  concat (map (fun i => py_slice row (i * num_steps) ((i + 1) * num_steps))
              (range e))
  = take (e * num_steps) row.
Proof.
  induction e as [|e IH]; [done|].
  rewrite range_S, map_app, concat_app, IH. simpl. rewrite app_nil_r.
  unfold py_slice.
  replace ((e + 1) * num_steps - e * num_steps)%nat with num_steps by lia.
  rewrite take_take_drop. f_equal. lia.
Qed.

Lemma row_of_windows (raw : list Z) (batch_size' bpl num_steps e r : nat) :
  (r < batch_size')%nat -> (e * num_steps <= bpl)%nat ->
  row_of_batches r
    (map (fun i => columns (map (stacked_row bpl raw) (range batch_size'))
                     (i * num_steps) ((i + 1) * num_steps))
         (range e))
  = map to_int32 (py_slice raw (bpl * r) (bpl * r + e * num_steps)).
Proof.
  intros Hr He. unfold row_of_batches. rewrite map_map.
  rewrite (map_ext _ (fun i => py_slice (stacked_row bpl raw r)
                                 (i * num_steps) ((i + 1) * num_steps))).
  - rewrite concat_windows. unfold stacked_row, py_slice.
    rewrite <- fmap_take, take_take. do 2 f_equal. lia.
  - intros i. unfold columns.
    by rewrite list_lookup_fmap, lookup_stacked by done.
Qed.

Lemma rows_of_batches_of (raw_x raw_y : list Z)
    (batch_size' num_steps r : nat) :
  (1 <= num_steps)%nat -> (r < batch_size')%nat ->
  let bpl := (length raw_x / batch_size')%nat in
  let batches := batches_of raw_x raw_y batch_size' num_steps in
  row_of_batches r (map fst batches)
  = map to_int32 (py_slice raw_x (bpl * r) (bpl * r + bpl / num_steps * num_steps))
  /\
  row_of_batches r (map snd batches)
  = map to_int32 (py_slice raw_y (bpl * r) (bpl * r + bpl / num_steps * num_steps)).
Proof.
  intros Hns Hr bpl batches.
  assert (He : (bpl / num_steps * num_steps <= bpl)%nat)
    by (rewrite Nat.mul_comm; apply Nat.Div0.mul_div_le).
  unfold batches, batches_of. fold bpl. rewrite !map_map. simpl.
  split; by apply row_of_windows.
Qed.

(** X7: the windows of successive batches continue one another: put end to
    end, row r of the successive x (and y) is the run of
    (bpl // num_steps) * num_steps raw elements that starts at bpl * r, as
    [int32], for bpl = len(raw_x) // batch_size. *)
Theorem gen_batch_rows_continue (raw_x raw_y : list Z)
    (batch_size' num_steps r : nat) :
  (length raw_x <= length raw_y)%nat ->
  (1 <= batch_size')%nat -> (1 <= num_steps)%nat -> (r < batch_size')%nat ->
  let bpl := (length raw_x / batch_size')%nat in
  exists batches,
    gen_batch (raw_x, raw_y) batch_size' num_steps = Ok batches /\
    row_of_batches r (map fst batches)
    = map to_int32
        (py_slice raw_x (bpl * r) (bpl * r + bpl / num_steps * num_steps)) /\
    row_of_batches r (map snd batches)
    = map to_int32
        (py_slice raw_y (bpl * r) (bpl * r + bpl / num_steps * num_steps)).
Proof.
  intros Hlen Hbs Hns Hr bpl.
  exists (batches_of raw_x raw_y batch_size' num_steps).
  split; [by apply gen_batch_ok_le|]. by apply rows_of_batches_of.
Qed.

Lemma gen_batch_rows_continue_witness :
  exists batches,
    gen_batch ([1; 2; 3; 4; 5; 6; 7; 8; 9; 10; 11],
               [21; 22; 23; 24; 25; 26; 27; 28; 29; 30; 31]) 2 2 = Ok batches /\
    row_of_batches 1 (map fst batches) = map to_int32 [6; 7; 8; 9] /\
    row_of_batches 1 (map snd batches) = map to_int32 [26; 27; 28; 29].
Proof.
  apply (gen_batch_rows_continue [1; 2; 3; 4; 5; 6; 7; 8; 9; 10; 11]
           [21; 22; 23; 24; 25; 26; 27; 28; 29; 30; 31] 2 2 1); simpl; lia.
Defined.

Lemma concat_rows (raw : list Z) (bpl rows : nat) :
  concat (map (fun r => map to_int32 (py_slice raw (bpl * r) (bpl * r + bpl)))
              (range rows))
  = map to_int32 (take (rows * bpl) raw).
Proof.
  rewrite <- (concat_windows raw bpl rows), concat_map, map_map.
  f_equal. apply map_ext. intros r. do 2 f_equal; lia.
Qed.

(** X8: when nothing is cut off, batching loses nothing and keeps the
    order: if batch_size divides the length and num_steps divides
    len(raw_x) // batch_size, then the rows of the batches, each put end to
    end over the successive batches and then one after the other, give
    [raw_x] back (as [int32]), and likewise [raw_y]. *)
Theorem gen_batch_unbatch (raw_x raw_y : list Z) (batch_size' num_steps : nat) :
  length raw_x = length raw_y ->
  (1 <= batch_size')%nat -> (1 <= num_steps)%nat ->
  (length raw_x mod batch_size' = 0)%nat ->
  ((length raw_x / batch_size') mod num_steps = 0)%nat ->
  exists batches,
    gen_batch (raw_x, raw_y) batch_size' num_steps = Ok batches /\
    concat (map (fun r => row_of_batches r (map fst batches)) (range batch_size'))
    = map to_int32 raw_x /\
    concat (map (fun r => row_of_batches r (map snd batches)) (range batch_size'))
    = map to_int32 raw_y.
Proof.
  intros Hlen Hbs Hns Hdiv_bs Hdiv_ns.
  exists (batches_of raw_x raw_y batch_size' num_steps).
  split; [by apply gen_batch_ok|].
  set (bpl := (length raw_x / batch_size')%nat) in *.
  assert (Hcols : (bpl / num_steps * num_steps = bpl)%nat).
  { pose proof (Nat.div_mod_eq bpl num_steps). lia. }
  assert (Hall : (batch_size' * bpl = length raw_x)%nat).
  { pose proof (Nat.div_mod_eq (length raw_x) batch_size'). fold bpl in H. lia. }
  split.
  - rewrite (map_ext_in _ (fun r => map to_int32
                                      (py_slice raw_x (bpl * r) (bpl * r + bpl)))).
    + rewrite concat_rows, Hall. by rewrite take_ge.
    + intros r Hr. apply in_seq in Hr.
      destruct (rows_of_batches_of raw_x raw_y batch_size' num_steps r Hns
                  ltac:(lia)) as [Hx _].
      fold bpl in Hx. rewrite Hx. by rewrite Hcols.
  - rewrite (map_ext_in _ (fun r => map to_int32
                                      (py_slice raw_y (bpl * r) (bpl * r + bpl)))).
    + rewrite concat_rows, Hall. by rewrite take_ge by lia.
    + intros r Hr. apply in_seq in Hr.
      destruct (rows_of_batches_of raw_x raw_y batch_size' num_steps r Hns
                  ltac:(lia)) as [_ Hy].
      fold bpl in Hy. rewrite Hy. by rewrite Hcols.
Qed.

Lemma gen_batch_unbatch_witness :
  exists batches,
    gen_batch ([1; 2; 3; 4; 5; 6; 7; 8; 9; 10; 11; 12],
               [21; 22; 23; 24; 25; 26; 27; 28; 29; 30; 31; 32]) 2 3 = Ok batches /\
    concat (map (fun r => row_of_batches r (map fst batches)) (range 2))
    = map to_int32 [1; 2; 3; 4; 5; 6; 7; 8; 9; 10; 11; 12] /\
    concat (map (fun r => row_of_batches r (map snd batches)) (range 2))
    = map to_int32 [21; 22; 23; 24; 25; 26; 27; 28; 29; 30; 31; 32].
Proof.
  apply (gen_batch_unbatch [1; 2; 3; 4; 5; 6; 7; 8; 9; 10; 11; 12]
           [21; 22; 23; 24; 25; 26; 27; 28; 29; 30; 31; 32] 2 3);
    [reflexivity | lia | lia | reflexivity | reflexivity].
Defined.

Lemma set_row_single (n : nat) (v : list Z) :
  set_row (np_zeros 1 n) 0 v
  = if decide (length v = n) then Ok [map to_int32 v]
    else match v with
         | [c] => Ok [replicate n (to_int32 c)]
         | _ => Raise ValueError
         end.
Proof.
  unfold set_row, np_zeros. simpl. rewrite length_replicate.
  by destruct (decide (length v = n)).
Qed.

Lemma stack_single (raw_x raw_y : list Z) (n : nat) :
  stack raw_x raw_y 1 n
  = (data_x ← set_row (np_zeros 1 n) 0 (py_slice raw_x 0 n);
     data_y ← set_row (np_zeros 1 n) 0 (py_slice raw_y 0 n);
     Ok (data_x, data_y)).
Proof.
  unfold stack, range. cbn [seq for_in]. unfold fill_body.
  rewrite Nat.mul_0_r, Nat.add_0_l, Nat.mul_1_r.
  destruct (set_row (np_zeros 1 n) 0 (py_slice raw_x 0 n)) as [data_x|e];
    [|done].
  rewrite !bind_Ok.
  by destruct (set_row (np_zeros 1 n) 0 (py_slice raw_y 0 n)) as [data_y|e].
Qed.

(** X9: a single label is broadcast, not refused: with batch_size = 1 and
    a [raw_y] of one element c, [gen_batch] behaves as if every input had
    the label c. *)
Theorem gen_batch_broadcasts_label (raw_x : list Z) (c : Z) (num_steps : nat) :
  (1 <= length raw_x)%nat ->
  gen_batch (raw_x, [c]) 1 num_steps
  = gen_batch (raw_x, replicate (length raw_x) c) 1 num_steps.
Proof.
  intros Hlen. unfold gen_batch. rewrite floordiv_ok, !bind_Ok by done.
  rewrite Nat.div_1_r.
  enough (Hstack : stack raw_x [c] 1 (length raw_x)
                   = stack raw_x (replicate (length raw_x) c) 1 (length raw_x))
    by (by rewrite Hstack).
  rewrite !stack_single.
  assert (Hy : set_row (np_zeros 1 (length raw_x)) 0
                 (py_slice [c] 0 (length raw_x))
               = set_row (np_zeros 1 (length raw_x)) 0
                   (py_slice (replicate (length raw_x) c) 0 (length raw_x))).
  { rewrite !set_row_single. unfold py_slice.
    rewrite !drop_0, Nat.sub_0_r.
    rewrite !take_ge by (rewrite ?length_replicate; simpl; lia).
    rewrite length_replicate, fmap_replicate.
    destruct (decide (length raw_x = length raw_x)) as [_|?]; [|done].
    destruct (decide (length [c] = length raw_x)) as [Hone|_]; [|done].
    simpl in Hone. by rewrite <- Hone. }
  by rewrite Hy.
Qed.

Lemma gen_batch_broadcasts_label_witness :
  gen_batch ([1; 0; 1; 1], [1]) 1 2 = gen_batch ([1; 0; 1; 1], [1; 1; 1; 1]) 1 2.
Proof.
  apply (gen_batch_broadcasts_label [1; 0; 1; 1] 1 2). simpl. lia.
Defined.

(** ** gen_epochs *)

Lemma stacked_row_bits (raw : list Z) (bpl r : nat) :
  Forall is_bit raw -> Forall is_bit (stacked_row bpl raw r).
Proof.
  intros Hraw. rewrite stacked_row_int32.
  - by apply Forall_py_slice.
  - eapply Forall_impl; [exact Hraw|]. apply is_bit_int32.
Qed.

Lemma window_bits (raw : list Z) (rows bpl lo hi : nat) :
  Forall is_bit raw ->
  all_bits (columns (map (stacked_row bpl raw) (range rows)) lo hi).
Proof.
  intros Hraw. unfold all_bits, columns. rewrite map_map.
  apply Forall_forall. intros row Hrow.
  apply list_elem_of_In, in_map_iff in Hrow as (r & <- & _).
  by apply Forall_py_slice, stacked_row_bits.
Qed.

Lemma batches_of_bits (raw_x raw_y : list Z) (batch_size' num_steps i : nat)
    (x y : matrix) :
  length raw_x = length raw_y ->
  (1 <= batch_size')%nat -> (1 <= num_steps)%nat ->
  Forall is_bit raw_x -> Forall is_bit raw_y ->
  batches_of raw_x raw_y batch_size' num_steps !! i = Some (x, y) ->
  has_shape x batch_size' num_steps /\ has_shape y batch_size' num_steps /\
  all_bits x /\ all_bits y.
Proof.
  intros Hlen Hbs Hns Hx Hy Hxy.
  pose proof (batches_of_shapes raw_x raw_y batch_size' num_steps Hlen Hbs Hns)
    as Hshapes.
  rewrite Forall_lookup in Hshapes. destruct (Hshapes i (x, y) Hxy) as [Sx Sy].
  simpl in Sx, Sy.
  apply batches_of_inv in Hxy as (_ & Ex & Ey).
  split; [exact Sx|]. split; [exact Sy|].
  split; [rewrite Ex|rewrite Ey]; by apply window_bits.
Qed.

(** X10: with num_steps >= 1, [gen_epochs(n, num_steps)] yields n epochs,
    each of 1000000 // 200 // num_steps batches, and every batch is a pair
    of matrices of shape [200, num_steps] that hold only 0 and 1. *)
Theorem gen_epochs_batches (tapes : nat -> tape) (n num_steps : nat) :
  (1 <= num_steps)%nat ->
  exists epochs : list (list (matrix * matrix)),
    gen_epochs tapes n num_steps = Ok epochs /\
    length epochs = n /\
    forall (k : nat) (epoch : list (matrix * matrix)),
      epochs !! k = Some epoch ->
      length epoch = (default_size / batch_size / num_steps)%nat /\
      forall (i : nat) (x y : matrix),
        epoch !! i = Some (x, y) ->
        has_shape x 200 num_steps /\ has_shape y 200 num_steps /\
        all_bits x /\ all_bits y.
Proof.
  intros Hns. exists (map (epoch_of tapes num_steps) (range n)).
  split; [by apply gen_epochs_loop|].
  split; [unfold range; by rewrite length_map, length_seq|].
  intros k epoch Hk.
  apply list_lookup_fmap_Some in Hk as (k' & -> & _).
  split; [apply length_epoch_of|].
  intros i x y Hxy. unfold epoch_of in Hxy.
  apply (batches_of_bits (np_random_choice2 (tapes k') default_size)
           (map (label_at (tapes k') default_size) (range default_size))
           batch_size num_steps i x y);
    [ | unfold batch_size; lia | exact Hns | apply np_random_choice2_bits
      | apply labels_bits | exact Hxy ].
  rewrite length_np_random_choice2. unfold range.
  rewrite length_map, length_seq. reflexivity.
Qed.

Lemma gen_epochs_batches_witness :
  (1 <= 5)%nat /\
  exists epochs : list (list (matrix * matrix)),
    gen_epochs (fun _ => sample_tape) 2 5 = Ok epochs /\
    length epochs = 2%nat /\
    forall (k : nat) (epoch : list (matrix * matrix)),
      epochs !! k = Some epoch ->
      length epoch = (default_size / batch_size / 5)%nat /\
      forall (i : nat) (x y : matrix),
        epoch !! i = Some (x, y) ->
        has_shape x 200 5 /\ has_shape y 200 5 /\ all_bits x /\ all_bits y.
Proof.
  split; [lia|]. apply (gen_epochs_batches (fun _ => sample_tape) 2 5). lia.
Defined.

Lemma gen_batch_no_steps (raw_x raw_y : list Z) (batch_size' : nat) :
  (length raw_x <= length raw_y)%nat -> (1 <= batch_size')%nat ->
  gen_batch (raw_x, raw_y) batch_size' 0 = Raise ZeroDivisionError.
Proof.
  intros Hlen Hbs. unfold gen_batch.
  rewrite floordiv_ok, bind_Ok by done.
  pose proof (bpl_fits (length raw_x) batch_size' Hbs) as Hfits.
  by rewrite stack_ok, bind_Ok by lia.
Qed.

Lemma gen_epochs_no_steps (tapes : nat -> tape) (n : nat) :
  gen_epochs tapes n 0
  = match n with
    | O => Ok []
    | S _ => Raise ZeroDivisionError
    end.
Proof.
  destruct n as [|n]; [done|].
  unfold gen_epochs, range. cbn [seq for_in].
  pose proof default_size_large as Hsize. revert Hsize.
  generalize default_size. intros size Hsize.
  rewrite gen_data_large, bind_Ok by done.
  rewrite gen_batch_no_steps; [done| |unfold batch_size; lia].
  rewrite length_np_random_choice2. unfold range.
  by rewrite length_map, length_seq.
Qed.

(** ** train_network *)

Lemma default_epoch_length : (default_size / batch_size = 5000)%nat.
Proof. unfold default_size, batch_size. div_lia. Qed.

Lemma length_filter_logs (n : nat) :
  length (filter (fun step => logs_at step = true) (range n))
  = ((n - 1) / 100)%nat.
Proof.
  induction n as [|n IH]; [done|].
  rewrite range_S, filter_app, length_app, IH, filter_cons, filter_nil.
  unfold logs_at. case_decide as Hlog; cbn [length].
  - apply andb_true_iff in Hlog as [Hmod Hpos].
    apply Nat.eqb_eq in Hmod. apply Nat.ltb_lt in Hpos. div_lia.
  - apply not_true_iff_false, andb_false_iff in Hlog as [Hmod|Hzero].
    + apply Nat.eqb_neq in Hmod. div_lia.
    + apply Nat.ltb_ge in Hzero. div_lia.
Qed.

Lemma filter_logs_ge (n : nat) :
  (101 <= n)%nat ->
  exists rest, filter (fun step => logs_at step = true) (range n)
               = 100%nat :: rest.
Proof.
  intros Hn. unfold range.
  replace n with (101 + (n - 101))%nat by lia.
  rewrite seq_app, filter_app. by eexists.
Qed.

Section train_network_further.
Context {session rnn_state loss : Type}.
Variable sess_run :
  session -> matrix -> matrix -> rnn_state -> loss * rnn_state * session.
Variable np_zeros_state : nat -> nat -> rnn_state.
Variable loss_zero : loss.
Variable loss_add : loss -> loss -> loss.
Variable loss_div100 : loss -> loss.

Lemma length_epoch_entries (ls : list loss) :
  length (epoch_entries loss_zero loss_add loss_div100 ls)
  = ((length ls - 1) / 100)%nat.
Proof. unfold epoch_entries. by rewrite length_map, length_filter_logs. Qed.

Lemma length_logged_entries (state_size : nat) (sess : session)
    (epochs : list (list (matrix * matrix))) :
  length (logged_entries loss_zero loss_add loss_div100
            (run_epochs sess_run np_zeros_state state_size sess epochs))
  = sum_list (map (fun epoch => ((length epoch - 1) / 100)%nat) epochs).
Proof.
  revert sess. induction epochs as [|epoch epochs IH]; intros sess; [done|].
  cbn [run_epochs map sum_list sum_list_with].
  pose proof (length_run_epoch sess_run sess
                (np_zeros_state batch_size state_size) epoch) as Hlen.
  destruct (run_epoch sess_run sess (np_zeros_state batch_size state_size) epoch)
    as [[ls st] sess'].
  simpl in Hlen. unfold logged_entries in *. cbn [map concat].
  by rewrite length_app, length_epoch_entries, IH, Hlen.
Qed.

(** X12: with num_steps >= 1, [train_network] returns
    num_epochs * ((5000 // num_steps - 1) // 100) losses: an epoch has
    5000 // num_steps steps, and one entry is logged for each multiple of
    100 among its steps 1, 2, ... (nine per epoch for num_steps = 5). *)
Theorem train_network_entry_count (tapes : nat -> tape) (sess0 : session)
    (num_epochs num_steps state_size : nat) :
  (1 <= num_steps)%nat ->
  exists training_losses : list loss,
    train_network sess_run np_zeros_state loss_zero loss_add loss_div100
      tapes sess0 num_epochs num_steps state_size
    = Ok training_losses /\
    length training_losses
    = (num_epochs * ((5000 / num_steps - 1) / 100))%nat.
Proof.
  intros Hns. unfold train_network.
  rewrite gen_epochs_loop, bind_Ok by done.
  eexists. split; [done|].
  rewrite train_loop_logged, length_logged_entries.
  rewrite (sum_list_const _ _ ((5000 / num_steps - 1) / 100)%nat).
  - unfold range. by rewrite length_map, length_seq.
  - apply Forall_forall. intros epoch Hepoch.
    apply list_elem_of_In, in_map_iff in Hepoch as (i & <- & _).
    by rewrite length_epoch_of, default_epoch_length.
Qed.

(** X13: with num_steps >= 50 an epoch has at most 100 steps, step 100 is
    never reached, and [train_network] returns the empty list. *)
Theorem train_network_logs_nothing (tapes : nat -> tape) (sess0 : session)
    (num_epochs num_steps state_size : nat) :
  (50 <= num_steps)%nat ->
  train_network sess_run np_zeros_state loss_zero loss_add loss_div100
    tapes sess0 num_epochs num_steps state_size
  = Ok [].
Proof.
  intros Hns. unfold train_network.
  rewrite gen_epochs_loop, bind_Ok by lia. f_equal.
  apply nil_length_inv.
  rewrite train_loop_logged, length_logged_entries.
  rewrite (sum_list_const _ _ 0%nat); [lia|].
  apply Forall_forall. intros epoch Hepoch.
  apply list_elem_of_In, in_map_iff in Hepoch as (i & <- & _).
  rewrite length_epoch_of, default_epoch_length.
  apply Nat.div_small.
  assert (5000 / num_steps <= 100)%nat; [|lia].
  apply Nat.Div0.div_le_upper_bound. lia.
Qed.

(** X14: the first entry of an epoch averages one loss too many: with at
    least 101 steps in the first epoch, the first value returned is the sum
    of the losses of its steps 0 to 100, 101 losses, divided by 100. *)
Theorem train_loop_first_entry (state_size : nat) (sess0 : session)
    (epoch : list (matrix * matrix)) (epochs : list (list (matrix * matrix))) :
  (101 <= length epoch)%nat ->
  train_loop sess_run np_zeros_state loss_zero loss_add loss_div100
    state_size sess0 (epoch :: epochs) !! 0%nat
  = Some (loss_div100
            (foldl loss_add loss_zero
               (take 101
                  (run_epoch sess_run sess0
                     (np_zeros_state batch_size state_size) epoch).1.1))).
Proof.
  intros Hlen. rewrite train_loop_logged. cbn [run_epochs].
  pose proof (length_run_epoch sess_run sess0
                (np_zeros_state batch_size state_size) epoch) as Hls.
  destruct (run_epoch sess_run sess0 (np_zeros_state batch_size state_size) epoch)
    as [[ls st] sess'].
  simpl in Hls. cbn [fst]. unfold logged_entries. cbn [map concat].
  unfold epoch_entries.
  destruct (filter_logs_ge (length ls) ltac:(lia)) as [rest ->].
  done.
Qed.
End train_network_further.

Lemma train_network_entry_count_witness :
  (1 <= 5)%nat /\
  exists training_losses : list Z,
    train_network counting_run (fun _ _ => tt) 0 Z.add (fun z => z / 100)
      (fun _ => sample_tape) 0%nat 3 5 4
    = Ok training_losses /\
    length training_losses = (3 * ((5000 / 5 - 1) / 100))%nat.
Proof.
  split; [lia|].
  apply (train_network_entry_count counting_run (fun _ _ => tt) 0 Z.add
           (fun z => z / 100) (fun _ => sample_tape) 0%nat 3 5 4).
  lia.
Defined.

Lemma train_network_logs_nothing_witness :
  (50 <= 50)%nat /\
  train_network counting_run (fun _ _ => tt) 0 Z.add (fun z => z / 100)
    (fun _ => sample_tape) 0%nat 2 50 4
  = Ok [].
Proof.
  split; [lia|].
  apply (train_network_logs_nothing counting_run (fun _ _ => tt) 0 Z.add
           (fun z => z / 100) (fun _ => sample_tape) 0%nat 2 50 4).
  lia.
Defined.

Lemma train_loop_first_entry_witness :
  train_loop counting_run (fun _ _ => tt) 0 Z.add (fun z => z / 100) 4 0%nat
    [replicate 150 ([], [])] !! 0%nat
  = Some (foldl Z.add 0
            (take 101 (run_epoch counting_run 0%nat tt
                         (replicate 150 ([], []))).1.1) / 100).
Proof.
  apply (train_loop_first_entry counting_run (fun _ _ => tt) 0 Z.add
           (fun z => z / 100) 4 0%nat (replicate 150 ([], [])) []).
  rewrite length_replicate. lia.
Defined.

(** X11: num_steps = 0 is not refused up front: with at least one epoch,
    consuming the first epoch of [gen_epochs] generates its data, fills its
    matrices and raises [ZeroDivisionError], and so does [train_network],
    that returns nothing; with no epoch at all, [train_network] returns the
    empty list whatever num_steps. *)
Theorem zero_num_steps_raises {session rnn_state loss : Type}
    (sess_run :
       session -> matrix -> matrix -> rnn_state -> loss * rnn_state * session)
    (np_zeros_state : nat -> nat -> rnn_state) (loss_zero : loss)
    (loss_add : loss -> loss -> loss) (loss_div100 : loss -> loss)
    (tapes : nat -> tape) (sess0 : session) (n num_steps state_size : nat) :
  gen_epochs tapes (S n) 0 = Raise ZeroDivisionError /\
  train_network sess_run np_zeros_state loss_zero loss_add loss_div100
    tapes sess0 (S n) 0 state_size = Raise ZeroDivisionError /\
  train_network sess_run np_zeros_state loss_zero loss_add loss_div100
    tapes sess0 0 num_steps state_size = Ok [].
Proof.
  split; [apply (gen_epochs_no_steps tapes (S n))|].
  split; [|done].
  unfold train_network. by rewrite (gen_epochs_no_steps tapes (S n)).
Qed.

(** ** The unrolled network and its loss *)

(** [a[-1]] is the last element of a list that has one. *)
Lemma py_getitem_last {A : Type} (a : list A) (v : A) :
  (1 <= length a)%nat -> a !! (length a - 1)%nat = Some v ->
  py_getitem a (-1) = Ok v.
Proof.
  intros Hlen Hv. apply (py_getitem_lag a 0 1 v); try lia.
  unfold lag_index. simpl. by rewrite Nat.add_0_r.
Qed.

Lemma py_getitem_nil {A : Type} (k : Z) : py_getitem (@nil A) k = Raise IndexError.
Proof.
  unfold py_getitem. simpl. by repeat case_match.
Qed.

Lemma py_getitem_raises {A : Type} (a : list A) (k : Z) (e : exn) :
  py_getitem a k = Raise e -> e = IndexError.
Proof. unfold py_getitem. intros He. repeat case_match; congruence. Qed.

Section rnn_graph_properties.
Context {tensor : Type}.
Variable rnn_cell : tensor -> tensor -> tensor.
Variable init_state : tensor.
Variable logit_of : tensor -> tensor.
Variable softmax : tensor -> tensor.
Variable cross_entropy : tensor -> tensor -> tensor.
Variable reduce_mean : tensor -> tensor.

Lemma state_after_snoc (state : tensor) (rnn_inputs : list tensor)
    (rnn_input : tensor) :
  state_after rnn_cell state (rnn_inputs ++ [rnn_input])
  = rnn_cell rnn_input (state_after rnn_cell state rnn_inputs).
Proof. unfold state_after. by rewrite foldl_snoc. Qed.

(** The loop leaves the last state and, in [rnn_outputs], the state after
    each input. *)
Lemma unroll_loop (rnn_inputs : list tensor) :
  foldl (unroll_body rnn_cell) (init_state, []) rnn_inputs
  = (state_after rnn_cell init_state rnn_inputs,
     map (fun k => state_after rnn_cell init_state (take (S k) rnn_inputs))
         (range (length rnn_inputs))).
Proof.
  induction rnn_inputs as [|rnn_input rnn_inputs IH] using rev_ind; [done|].
  rewrite foldl_snoc, IH. unfold unroll_body.
  rewrite <- state_after_snoc, length_app, Nat.add_1_r, range_S, map_app.
  f_equal. f_equal.
  - apply map_ext_in. intros k Hk. apply in_seq in Hk.
    by rewrite take_app_le by lia.
  - simpl. by rewrite take_ge by (rewrite length_app; simpl; lia).
Qed.
Lemma build_graph_ok (rnn_inputs y_as_list : list tensor) :
  let n := length rnn_inputs in
  let k := (n `min` length y_as_list)%nat in
  (1 <= k)%nat ->
  exists (g : graph) (label : tensor),
    build_graph rnn_cell init_state logit_of softmax cross_entropy reduce_mean
      rnn_inputs y_as_list = Ok g /\
    rnn_outputs g
    = map (fun j => state_after rnn_cell init_state (take (S j) rnn_inputs))
          (range n) /\
    final_state g = state_after rnn_cell init_state rnn_inputs /\
    length (losses g) = k /\
    y_as_list !! (k - 1)%nat = Some label /\
    losses_last g
    = cross_entropy
        (logit_of (state_after rnn_cell init_state (take k rnn_inputs))) label /\
    total_loss g = reduce_mean (losses_last g).
Proof.
  intros n k Hk. unfold build_graph. rewrite unroll_loop. fold n.
  set (outs := map (fun j => state_after rnn_cell init_state
                               (take (S j) rnn_inputs)) (range n)).
  assert (Houts : length outs = n)
    by (unfold outs, range; by rewrite length_map, length_seq).
  destruct (lookup_lt_is_Some_2 y_as_list (k - 1)%nat ltac:(lia)) as [label Hlabel].
  rewrite (py_getitem_last outs (state_after rnn_cell init_state rnn_inputs)).
  - rewrite bind_Ok.
    set (ls := map (fun '(logit, label) => cross_entropy logit label)
                   (zip (map logit_of outs) y_as_list)).
    assert (Hls : length ls = k).
    { unfold ls. rewrite length_map, length_zip_with, length_map. lia. }
    rewrite (py_getitem_last ls
               (cross_entropy
                  (logit_of (state_after rnn_cell init_state (take k rnn_inputs)))
                  label)).
    + rewrite !bind_Ok. eexists _, label. split; [done|]. simpl.
      repeat split; done.
    + lia.
    + rewrite Hls. unfold ls.
      rewrite list_lookup_fmap, lookup_zip_with, list_lookup_fmap.
      unfold outs, range.
      rewrite list_lookup_fmap, lookup_seq_lt by lia. simpl.
      rewrite Hlabel. simpl. by replace (S (k - 1)) with k by lia.
  - lia.
  - rewrite Houts. unfold outs, range.
    rewrite list_lookup_fmap, lookup_seq_lt by lia. simpl.
    do 2 f_equal. apply take_ge. fold n. lia.
Qed.

(** X15: the loop unrolls the cell over the inputs: [build_graph] succeeds
    as soon as there is one input and one label, [rnn_outputs] then has one
    state per input, the k-th being the state after the inputs 0 to k, and
    [final_state] is the state after all of them. With no input, or with no
    label, an index [-1] raises [IndexError]. *)
Theorem rnn_unrolled (rnn_inputs y_as_list : list tensor) :
  (rnn_inputs = [] \/ y_as_list = [] ->
   build_graph rnn_cell init_state logit_of softmax cross_entropy reduce_mean
     rnn_inputs y_as_list = Raise IndexError) /\
  (rnn_inputs <> [] -> y_as_list <> [] ->
   exists g : graph,
     build_graph rnn_cell init_state logit_of softmax cross_entropy reduce_mean
       rnn_inputs y_as_list = Ok g /\
     length (rnn_outputs g) = length rnn_inputs /\
     (forall k : nat, (k < length rnn_inputs)%nat ->
        rnn_outputs g !! k
        = Some (state_after rnn_cell init_state (take (S k) rnn_inputs))) /\
     final_state g = state_after rnn_cell init_state rnn_inputs).
Proof.
  split.
  - intros [->| ->].
    + done.
    + unfold build_graph. rewrite unroll_loop. cbv beta iota zeta.
      rewrite zip_with_nil_r. cbn [map]. rewrite (py_getitem_nil (-1)).
      destruct (py_getitem _ (-1)) as [final|e] eqn:Hfinal; [done|].
      apply py_getitem_raises in Hfinal. by subst.
  - intros Hin Hy.
    destruct (build_graph_ok rnn_inputs y_as_list)
      as (g & label & Hg & Houts & Hfinal & _).
    { destruct rnn_inputs, y_as_list; simpl; try done; lia. }
    exists g. split; [done|]. rewrite Houts. unfold range.
    split; [by rewrite length_map, length_seq|]. split; [|done].
    intros k Hk. by rewrite list_lookup_fmap, lookup_seq_lt by done.
Qed.

(** X16: only the last time step is trained on: [total_loss] is the mean
    of the cross entropy between the logits of one state and one label, the
    last ones that have a partner in [zip(logits, y_as_list)]; with as many
    labels as inputs, they are the logits of [final_state] and the last
    label. The losses of the earlier steps are computed and left out. *)
Theorem total_loss_last_step (rnn_inputs y_as_list : list tensor) :
  rnn_inputs <> [] -> y_as_list <> [] ->
  let k := (length rnn_inputs `min` length y_as_list)%nat in
  exists (g : graph) (label : tensor),
    build_graph rnn_cell init_state logit_of softmax cross_entropy reduce_mean
      rnn_inputs y_as_list = Ok g /\
    length (losses g) = k /\
    y_as_list !! (k - 1)%nat = Some label /\
    total_loss g
    = reduce_mean
        (cross_entropy
           (logit_of (state_after rnn_cell init_state (take k rnn_inputs)))
           label) /\
    (length rnn_inputs = length y_as_list ->
     total_loss g = reduce_mean (cross_entropy (logit_of (final_state g)) label)).
Proof.
  intros Hin Hy k.
  destruct (build_graph_ok rnn_inputs y_as_list)
    as (g & label & Hg & Houts & Hfinal & Hlosses & Hlabel & Hlast & Htotal).
  { destruct rnn_inputs, y_as_list; simpl; try done; lia. }
  exists g, label. fold k in Hlosses, Hlabel, Hlast.
  split; [done|]. split; [done|]. split; [done|].
  split; [by rewrite Htotal, Hlast|].
  intros Hlen. rewrite Htotal, Hlast, Hfinal.
  by rewrite (take_ge rnn_inputs k) by (unfold k; lia).
Qed.
End rnn_graph_properties.

Lemma rnn_unrolled_witness :
  exists g : graph,
    build_graph Z.add 0 (fun s => 2 * s) (fun l => l) Z.sub (fun l => l)
      [0; 1; 1] [1; 0; 1] = Ok g /\
    length (rnn_outputs g) = 3%nat /\
    (forall k : nat, (k < 3)%nat ->
       rnn_outputs g !! k = Some (state_after Z.add 0 (take (S k) [0; 1; 1]))) /\
    final_state g = state_after Z.add 0 [0; 1; 1].
Proof.
  destruct (rnn_unrolled Z.add 0 (fun s => 2 * s) (fun l => l) Z.sub
              (fun l => l) [0; 1; 1] [1; 0; 1]) as [_ Hok].
  apply Hok; discriminate.
Defined.

Lemma total_loss_last_step_witness :
  exists (g : graph) (label : Z),
    build_graph Z.add 0 (fun s => 2 * s) (fun l => l) Z.sub (fun l => l)
      [0; 1; 1] [1; 0; 1] = Ok g /\
    length (losses g) = 3%nat /\
    [1; 0; 1] !! 2%nat = Some label /\
    total_loss g = 2 * state_after Z.add 0 (take 3 [0; 1; 1]) - label /\
    (3%nat = 3%nat -> total_loss g = 2 * final_state g - label).
Proof.
  apply (total_loss_last_step Z.add 0 (fun s => 2 * s) (fun l => l) Z.sub
           (fun l => l) [0; 1; 1] [1; 0; 1]); discriminate.
Defined.
